(** * Tatlin: the G-code lexer and parser of [libtatlin/gcodeparser2.py]

    A shallow embedding of [GcodeLexer], [Movement] and [GcodeParser], and the
    properties of the two-stage pipeline (line splitting, tokenizing, the
    command stream, the state-tracking parse loop) stated over it.

    Conventions of the embedding:
    - a Python [str] is a [string], read as a sequence of code points below
      256; whitespace is what [str.isspace] accepts there: the characters 9
      to 13 and 28 to 32, and the characters 133 and 160;
    - a Python [float] is a binary64 [float], with the kernel's arithmetic;
    - an argument value ([float] or [None]) is an [option float];
    - a [dict] of arguments is a [gmap string (option float)];
    - a raised exception is the [Raise] branch of [result]; what an
      exception leaves behind in the parser object is not modelled;
    - the generator [GcodeLexer.scan] is a [stream] of commands that ends
      normally or by raising;
    - the builtin [float()] is a parameter of the lexer ([py_float]);
    - the two names that [parse] uses and the module never binds are read
      from a [namespace], which the module leaves empty ([gcodeparser2]). *)

From Stdlib Require Import ZArith String Ascii List Floats Lia.
From stdpp Require Import base option list gmap strings pretty.

Set Warnings "-inexact-float".
Local Open Scope string_scope.
Local Open Scope list_scope.
Local Open Scope Z_scope.

(** ** Exceptions and results *)

Inductive exn : Type :=
| KeyError (key : string)
| IndexError
| NameError (name : string)
| TypeError
| GcodeArgumentError (msg : string)
| GcodeParserError (msg : string).

(** [GcodeArgumentError] is a subclass of [GcodeParserError]. *)
Definition is_GcodeParserError (e : exn) : bool :=
  match e with
  | GcodeArgumentError _ | GcodeParserError _ => true
  | _ => false
  end.

Inductive result (A : Type) : Type :=
| Ok (a : A)
| Raise (e : exn).
Arguments Ok {A} a.
Arguments Raise {A} e.

Global Instance result_ret : MRet result := @Ok.
Global Instance result_bind : MBind result :=
  fun A B f m => match m with Ok a => f a | Raise e => Raise e end.

(** What [float(s)] does on a string: a value, or a [ValueError] with its
    message. *)
Inductive conversion : Type :=
| Float (f : float)
| ValueError (msg : string).

(** ** The string operations the lexer uses *)

Module Py.

(** [s.find(sub)]: the first index of [sub] in [s], or [-1]. *)
Definition find (sub s : string) : Z :=
  match String.index 0 sub s with
  | Some i => Z.of_nat i
  | None => -1
  end.

(** [sub in s]. *)
Definition contains (sub s : string) : bool :=
  match String.index 0 sub s with
  | Some _ => true
  | None => false
  end.

(** [s[:i]] and [s[i:]], for [0 <= i]. *)
Fixpoint take (n : nat) (s : string) : string :=
  match n, s with
  | S k, String c rest => String c (take k rest)
  | _, _ => ""
  end.

Fixpoint drop (n : nat) (s : string) : string :=
  match n, s with
  | S k, String _ rest => drop k rest
  | _, _ => s
  end.

Definition slice_to (i : Z) (s : string) : string := take (Z.to_nat i) s.
Definition slice_from (i : Z) (s : string) : string := drop (Z.to_nat i) s.

(** [s.replace(old, new)] for a non-empty [old]: occurrences are replaced
    from the left and do not overlap. [skip] counts the characters of a
    matched occurrence that remain to be passed over. *)
Fixpoint replace_from (old new : string) (skip : nat) (s : string) : string :=
  match s with
  | "" => ""
  | String c rest =>
      match skip with
      | S k => replace_from old new k rest
      | O =>
          if String.prefix old s
          then new +:+ replace_from old new (String.length old - 1) rest
          else String c (replace_from old new 0 rest)
      end
  end.

Definition replace (old new s : string) : string := replace_from old new 0 s.

(** [s.split(sep)] for a one-character separator. *)
Fixpoint split (sep : ascii) (s : string) : list string :=
  match s with
  | "" => [""]
  | String c rest =>
      if Ascii.eqb c sep then "" :: split sep rest
      else match split sep rest with
           | w :: ws => String c w :: ws
           | [] => [String c ""]
           end
  end.

(** [c.isspace()] for a character [c]: the tab, the line and page
    separators 10 to 13, the information separators 28 to 31, the space, the
    next-line control 133 and the no-break space 160. *)
Definition is_whitespace (c : ascii) : bool :=
  let n := N_of_ascii c in
  ((9 <=? n) && (n <=? 13) || (28 <=? n) && (n <=? 32) || (n =? 133) || (n =? 160))%N.

(** A run of characters that has ended: a word unless it is empty. *)
Definition flush (word : string) : list string :=
  match word with
  | "" => []
  | _ => [word]
  end.

(** [s.split()]: the maximal runs of characters that are no whitespace, in
    order. [word] is the run read so far. *)
Fixpoint split_runs (word s : string) : list string :=
  match s with
  | "" => flush word
  | String c rest =>
      if is_whitespace c then flush word ++ split_runs "" rest
      else split_runs (word +:+ String c "") rest
  end.

Definition split_whitespace (s : string) : list string := split_runs "" s.

(** [s[0]], which raises on the empty string. *)
Definition first (s : string) : result string :=
  match s with
  | String c _ => Ok (String c "")
  | "" => Raise IndexError
  end.

(** ['%d' % n] for a natural number. *)
Definition str_of_nat (n : nat) : string := pretty n.

End Py.

(** ** GcodeLexer *)

(** A tokenized line: [(gcode, args, comment)]. *)
Record command : Type := Command {
  gcode : string;
  args : gmap string (option float);
  comment : string
}.

(** The value of a generator: the commands it yields, in order, and how it
    ends. *)
Inductive stream : Type :=
| Stop
| Yield (c : command) (rest : stream)
| Throw (e : exn).

Definition CR : string := String "013" "".
Definition LF : string := String "010" "".

(** [GcodeLexer.split_lines] *)
Definition split_lines (content : string) : list string :=
  Py.split "010" (Py.replace (LF +:+ LF) LF (Py.replace CR LF content)).

(** [GcodeLexer.split_comment] *)
Definition split_comment (line : string) : string * string :=
  let idx_semi := Py.find ";" line in
  let '(command, comment) :=
    if 0 <=? idx_semi
    then (Py.slice_to idx_semi line, Py.slice_from idx_semi line)
    else (line, "") in
  let idx_paren := Py.find "(" command in
  if 0 <=? idx_paren
  then (Py.slice_to idx_paren command, Py.slice_from idx_paren command +:+ comment)
  else (command, comment).

(** [GcodeLexer.is_blank]: [tokens == ('', {}, '')] *)
Definition is_blank (tokens : command) : bool :=
  bool_decide (gcode tokens = "") && bool_decide (args tokens = ∅)
  && bool_decide (comment tokens = "").

(** ['Error parsing arguments: %s on line %d\n\t%s' % (str(e), line_no, line)] *)
Definition scan_error_message (msg : string) (line_no : nat) (line : string) : string :=
  "Error parsing arguments: " +:+ msg +:+ " on line " +:+ Py.str_of_nat line_no
  +:+ String "010" (String "009" line).

Section Lexer.

(** The builtin [float] applied to a string. *)
Variable py_float : string -> conversion.

(** One iteration of the loop of [GcodeLexer.scan_args]: the right-hand
    side of the assignment is evaluated before the key [arg[0]]. *)
Definition scan_arg (d : gmap string (option float)) (arg : string)
  : result (gmap string (option float)) :=
  if bool_decide (Py.drop 1 arg = "")
  then k ← Py.first arg; Ok (<[k := None]> d)
  else match py_float (Py.drop 1 arg) with
       | Float v => k ← Py.first arg; Ok (<[k := Some v]> d)
       | ValueError msg => Raise (GcodeArgumentError msg)
       end.

Fixpoint scan_args_from (d : gmap string (option float)) (args : list string)
  : result (gmap string (option float)) :=
  match args with
  | [] => Ok d
  | arg :: rest => d' ← scan_arg d arg; scan_args_from d' rest
  end.

(** [GcodeLexer.scan_args] *)
Definition scan_args (args : list string) : result (gmap string (option float)) :=
  scan_args_from ∅ args.

(** [GcodeLexer.scan_line] *)
Definition scan_line (line : string) : result command :=
  let '(command, comment) := split_comment line in
  match Py.split_whitespace command with
  | word :: rest => d ← scan_args rest; Ok (Command word d comment)
  | [] => Ok (Command "" ∅ comment)
  end.

(** The loop of [GcodeLexer.scan] from line number [line_no] on: only a
    [GcodeArgumentError] is caught and raised again as a
    [GcodeParserError]. *)
Fixpoint scan_lines (line_no : nat) (lines : list string) : stream :=
  match lines with
  | [] => Stop
  | line :: rest =>
      match scan_line line with
      | Ok tokens =>
          if is_blank tokens then scan_lines (S line_no) rest
          else Yield tokens (scan_lines (S line_no) rest)
      | Raise (GcodeArgumentError msg) =>
          Throw (GcodeParserError (scan_error_message msg line_no line))
      | Raise e => Throw e
      end
  end.

(** [GcodeLexer.scan], on the lines that [load] stored. *)
Definition scan (lines : list string) : stream := scan_lines 1 lines.

End Lexer.

(** ** Movement *)

Definition FLAG_PERIMETER : Z := 1.
Definition FLAG_PERIMETER_OUTER : Z := 2.
Definition FLAG_LOOP : Z := 4.
Definition FLAG_SURROUND_LOOP : Z := 8.
Definition FLAG_EXTRUDER_ON : Z := 16.

(** The tuple [(args['X'], args['Y'], args['Z'])]. *)
Record point : Type := Point {
  px : option float;
  py : option float;
  pz : option float
}.

Record Movement : Type := mkMovement {
  src : point;
  dst : point;
  delta_e : option float;
  feedrate : option float;
  flags : Z
}.

(** [==] on argument values: [None] equals only [None], two floats compare
    as IEEE numbers. *)
Definition value_eqb (a b : option float) : bool :=
  match a, b with
  | Some u, Some v => PrimFloat.eqb u v
  | None, None => true
  | _, _ => false
  end.

(** [==] on two coordinate tuples. *)
Definition point_eqb (p q : point) : bool :=
  value_eqb (px p) (px q) && value_eqb (py p) (py q) && value_eqb (pz p) (pz q).

(** [a - b] on argument values; [None] is no operand of [-]. *)
Definition value_sub (a b : option float) : result float :=
  match a, b with
  | Some u, Some v => Ok (PrimFloat.sub u v)
  | _, _ => Raise TypeError
  end.

(** ** GcodeParser *)

Definition marker_layer : string := "(<layer>".
Definition marker_perimeter_start : string := "(<perimeter>".
Definition marker_perimeter_end : string := "(</perimeter>)".
Definition marker_loop_start : string := "(<loop>".
Definition marker_loop_end : string := "(</loop>)".
Definition marker_surrounding_loop_start : string := "(<surroundingLoop>)".
Definition marker_surrounding_loop_end : string := "(</surroundingLoop>)".

(** The attributes of a [GcodeParser] object. *)
Record parser : Type := Parser {
  self_src : option point;
  self_e_len : option float;
  self_flags : Z
}.

(** [GcodeParser.__init__] *)
Definition new_parser : parser :=
  {| self_src := None; self_e_len := Some 0%float; self_flags := 0 |}.

(** [d[key]] *)
Definition getitem (d : gmap string (option float)) (key : string)
  : result (option float) :=
  match d !! key with
  | Some v => Ok v
  | None => Raise (KeyError key)
  end.

(** [GcodeParser.set_flags], as a function of [self.flags]. *)
Definition set_flags (self_flags : Z) (c : command) : Z :=
  if Py.contains marker_loop_start (comment c) then
    Z.lor self_flags FLAG_LOOP
  else if Py.contains marker_loop_end (comment c) then
    Z.land self_flags (Z.lnot FLAG_LOOP)
  else if Py.contains marker_perimeter_start (comment c) then
    let self_flags := Z.lor self_flags FLAG_PERIMETER in
    if Py.contains "outer" (comment c)
    then Z.lor self_flags FLAG_PERIMETER_OUTER
    else self_flags
  else if Py.contains marker_perimeter_end (comment c) then
    Z.land self_flags (Z.lnot (Z.lor FLAG_PERIMETER FLAG_PERIMETER_OUTER))
  else if Py.contains marker_surrounding_loop_start (comment c) then
    Z.lor self_flags FLAG_SURROUND_LOOP
  else if Py.contains marker_surrounding_loop_end (comment c) then
    Z.land self_flags (Z.lnot FLAG_SURROUND_LOOP)
  else if String.eqb (gcode c) "M101" then
    Z.lor self_flags FLAG_EXTRUDER_ON
  else if String.eqb (gcode c) "M103" then
    Z.land self_flags (Z.lnot FLAG_EXTRUDER_ON)
  else self_flags.

(** [GcodeParser.command_coords]: [None] unless the command word is [G1]. *)
Definition command_coords (c : command) : result (option point) :=
  if String.eqb (gcode c) "G1" then
    x ← getitem (args c) "X";
    y ← getitem (args c) "Y";
    z ← getitem (args c) "Z";
    Ok (Some (Point x y z))
  else Ok None.

(** [gcode in ('G1', 'G2', 'G3')] *)
Definition is_motion (gcode : string) : bool :=
  String.eqb gcode "G1" || String.eqb gcode "G2" || String.eqb gcode "G3".

(** [GcodeParser.is_new_layer], as a function of [self.src]. *)
Definition is_new_layer (self_src : option point) (dst : point)
    (gcode comment : string) : result bool :=
  if Py.contains marker_layer comment then Ok true
  else if is_motion gcode then
    match self_src with
    | None => Raise TypeError
    | Some src =>
        dz ← value_sub (pz dst) (pz src);
        Ok (PrimFloat.ltb 0.1%float dz)
    end
  else Ok false.

(** The names [parse] reads from the module's namespace at run time.
    [gcodeparser2.py] binds neither of them. *)
Record namespace : Type := Namespace {
  global_delta_e : option (option float);
  global_GcodeParseError : option (string -> exn)
}.

Definition gcodeparser2 : namespace :=
  {| global_delta_e := None; global_GcodeParseError := None |}.

(** Reading a global name: an unbound one raises [NameError]. *)
Definition load_global {A : Type} (name : string) (binding : option A) : result A :=
  match binding with
  | Some v => Ok v
  | None => Raise (NameError name)
  end.

(** The state of the loop of [parse]: the parser's attributes, the locals
    [layers] and [movements], and the log of every Movement appended to
    [movements] so far. *)
Record state : Type := State {
  self : parser;
  layers : list (list Movement);
  movements : list Movement;
  emitted : list Movement
}.

(** The body of the loop of [GcodeParser.parse], for one command. *)
Definition parse_command (g : namespace) (st : state) (c : command) : result state :=
  dst ← command_coords c;
  e_len ← getitem (args c) "E";
  feedrate ← getitem (args c) "F";
  let self_flags := set_flags (self_flags (self st)) c in
  '(layers, movements, emitted) ←
    match self_src (self st), dst with
    | Some src, Some dst =>
        if negb (point_eqb src dst) then
          delta_e ← load_global "delta_e" (global_delta_e g);
          let move := mkMovement src dst delta_e feedrate self_flags in
          let movements := movements st ++ [move] in
          new ← is_new_layer (Some src) dst (gcode c) (comment c);
          if (new : bool)
          then Ok (layers st ++ [movements], [], emitted st ++ [move])
          else Ok (layers st, movements, emitted st ++ [move])
        else Ok (layers st, movements st, emitted st)
    | _, _ => Ok (layers st, movements st, emitted st)
    end;
  let self_src := match dst with Some _ => dst | None => self_src (self st) end in
  Ok (State (Parser self_src e_len self_flags) layers movements emitted).

(** The [for] loop of [parse] over the command stream. *)
Fixpoint parse_loop (g : namespace) (st : state) (s : stream) : result state :=
  match s with
  | Stop => Ok st
  | Yield c rest => st' ← parse_command g st c; parse_loop g st' rest
  | Throw e => Raise e
  end.

(** What [parse] does after the loop: the leftover movements become the
    last layer, and a result without layers is refused. *)
Definition finish (g : namespace) (st : state) : result (list (list Movement)) :=
  let layers :=
    if (0 <? length (movements st))%nat then layers st ++ [movements st]
    else layers st in
  if (length layers <? 1)%nat then
    cls ← load_global "GcodeParseError" (global_GcodeParseError g);
    Raise (cls "File does not contain valid Gcode")
  else Ok layers.

(** [GcodeParser.parse] on a parser whose lexer holds [lines]: the layers
    returned, with the state the loop ended in. *)
Definition parse (py_float : string -> conversion) (g : namespace)
    (p : parser) (lines : list string) : result (list (list Movement) * state) :=
  st ← parse_loop g (State p [] [] []) (scan py_float lines);
  document ← finish g st;
  Ok (document, st).

(** [load] followed by [parse], on a new parser. *)
Definition parse_text (py_float : string -> conversion) (g : namespace)
    (content : string) : result (list (list Movement) * state) :=
  parse py_float g new_parser (split_lines content).

(** ** An instance of [float()]

    [float_of_str] reads the literals that [float()] accepts in a string
    without whitespace or underscores: an optional sign, then [inf],
    [infinity] or [nan] in any case, or decimal digits with an optional
    fraction and an optional exponent. The value is the decimal number
    rounded to the nearest binary64 float, ties to even. Any other string is
    a [ValueError], worded as CPython 3 words it for a string without quotes
    or escapes. The properties below hold for every [py_float]; this one
    runs the sample programs. *)

Module Literal.

Definition digit (c : ascii) : option Z :=
  let n := Z.of_N (N_of_ascii c) in
  if (48 <=? n) && (n <=? 57) then Some (n - 48) else None.

(** The leading digits of [s]: the number they add to [acc], how many there
    are, and the rest of [s]. *)
Fixpoint digits (s : string) (acc : Z) (count : nat) : Z * nat * string :=
  match s with
  | String c rest =>
      match digit c with
      | Some d => digits rest (10 * acc + d) (S count)
      | None => (acc, count, s)
      end
  | "" => (acc, count, s)
  end.

Definition lower (c : ascii) : ascii :=
  let n := N_of_ascii c in
  if ((65 <=? n) && (n <=? 90))%N then ascii_of_N (n + 32) else c.

Fixpoint lowercase (s : string) : string :=
  match s with
  | String c rest => String (lower c) (lowercase rest)
  | "" => ""
  end.

(** An optional sign: [true] for [-]. *)
Definition sign (s : string) : bool * string :=
  match s with
  | String "-" rest => (true, rest)
  | String "+" rest => (false, rest)
  | _ => (false, s)
  end.

(** An optional exponent part, which must end the string. *)
Definition exponent (s : string) : option Z :=
  match s with
  | "" => Some 0
  | String c rest =>
      if bool_decide (lower c = "e"%char) then
        let '(neg, rest) := sign rest in
        match digits rest 0 0 with
        | (e, S _, "") => Some (if neg then - e else e)
        | _ => None
        end
      else None
  end.

(** [m * 10 ^ e10] for [0 < m], rounded to nearest even. *)
Definition round (neg : bool) (m e10 : Z) : float :=
  if 0 <=? e10 then
    SF2Prim (binary_normalize prec emax
               ((if neg then - m else m) * 10 ^ e10) 0 false)
  else
    SF2Prim (SFdiv prec emax
               (S754_finite neg (Z.to_pos m) 0)
               (S754_finite false (Z.to_pos (10 ^ (- e10))) 0)).

Definition decimal (neg : bool) (s : string) : option float :=
  let '(ip, n1, rest) := digits s 0 0 in
  let '(m, n2, rest) :=
    match rest with
    | String "." rest => digits rest ip 0
    | _ => (ip, 0%nat, rest)
    end in
  match (n1 + n2)%nat, exponent rest with
  | S _, Some e =>
      Some (if m =? 0 then (if neg then neg_zero else zero)
            else round neg m (e - Z.of_nat n2))
  | _, _ => None
  end.

Definition special (neg : bool) (s : string) : option float :=
  let w := lowercase s in
  if bool_decide (w = "inf") || bool_decide (w = "infinity")
  then Some (if neg then neg_infinity else infinity)
  else if bool_decide (w = "nan") then Some nan
  else None.

Definition float_of_str (s : string) : conversion :=
  let '(neg, body) := sign s in
  match special neg body with
  | Some f => Float f
  | None =>
      match decimal neg body with
      | Some f => Float f
      | None => ValueError ("could not convert string to float: '" +:+ s +:+ "'")
      end
  end.

End Literal.

(** ** Vocabulary of the properties *)

(** [flags & flag], read as a truth value. *)
Definition has_flag (flags flag : Z) : bool := negb (Z.land flags flag =? 0).

(** Every character of [s] satisfies [P]. *)
Fixpoint forall_chars (P : ascii -> bool) (s : string) : bool :=
  match s with
  | "" => true
  | String c rest => P c && forall_chars P rest
  end.

Definition is_separator (c : ascii) : bool := Ascii.eqb c "013" || Ascii.eqb c "010".

Definition no_cr (x : ascii) : bool := negb (Ascii.eqb "013" x).
Definition no_lf (x : ascii) : bool := negb (Ascii.eqb "010" x).

(** No character of [s] is a carriage return or a newline. *)
Definition separator_free (s : string) : bool :=
  forall_chars (fun c => negb (is_separator c)) s.

(** The argument tokens of a line: what follows the command word in the
    command portion. *)
Definition arg_tokens (line : string) : list string :=
  tail (Py.split_whitespace (fst (split_comment line))).

(** An argument token whose characters after the leading letter are not
    empty and are no floating-point number for [py_float]. *)
Definition malformed (py_float : string -> conversion) (token : string) : bool :=
  negb (bool_decide (Py.drop 1 token = "")) &&
  match py_float (Py.drop 1 token) with
  | Float _ => false
  | ValueError _ => true
  end.

(** The first malformed argument token of a line, if it has one. *)
Definition first_malformed (py_float : string -> conversion) (line : string)
  : option string :=
  find (malformed py_float) (arg_tokens line).

(** The commands a stream yields, and the exception that ends it, if any. *)
Fixpoint yielded (s : stream) : list command :=
  match s with
  | Yield c rest => c :: yielded rest
  | _ => []
  end.

Fixpoint raised (s : stream) : option exn :=
  match s with
  | Stop => None
  | Yield _ rest => raised rest
  | Throw e => Some e
  end.

(** The table of flag transitions as the specification lists it: a trigger
    on the comment or on the command word, and the effect on the flags. *)
Inductive trigger : Type :=
| CommentContains (marker : string)
| WordEquals (word : string).

Definition triggered (t : trigger) (c : command) : bool :=
  match t with
  | CommentContains marker => Py.contains marker (comment c)
  | WordEquals word => String.eqb (gcode c) word
  end.

Definition set_bit (flag : Z) (flags : Z) : Z := Z.lor flags flag.
Definition clear_bit (flag : Z) (flags : Z) : Z := Z.land flags (Z.lnot flag).

Definition flag_rules : list (trigger * (command -> Z -> Z)) :=
  [ (CommentContains "(<loop>", fun _ => set_bit FLAG_LOOP);
    (CommentContains "(</loop>)", fun _ => clear_bit FLAG_LOOP);
    (CommentContains "(<perimeter>",
      fun c flags =>
        if Py.contains "outer" (comment c)
        then set_bit FLAG_PERIMETER_OUTER (set_bit FLAG_PERIMETER flags)
        else set_bit FLAG_PERIMETER flags);
    (CommentContains "(</perimeter>)",
      fun _ flags => clear_bit FLAG_PERIMETER_OUTER (clear_bit FLAG_PERIMETER flags));
    (CommentContains "(<surroundingLoop>)", fun _ => set_bit FLAG_SURROUND_LOOP);
    (CommentContains "(</surroundingLoop>)", fun _ => clear_bit FLAG_SURROUND_LOOP);
    (WordEquals "M101", fun _ => set_bit FLAG_EXTRUDER_ON);
    (WordEquals "M103", fun _ => clear_bit FLAG_EXTRUDER_ON) ].

(** The first rule whose trigger matches is applied, and no other. *)
Fixpoint first_match (rules : list (trigger * (command -> Z -> Z)))
    (c : command) (flags : Z) : Z :=
  match rules with
  | [] => flags
  | (t, effect) :: rest =>
      if triggered t c then effect c flags else first_match rest c flags
  end.

(** The command [c] makes [command_coords], and with it every turn of the
    loop of [parse], raise [KeyError] for the key [k]. *)
Definition fails_on_key (c : command) (k : string) : Prop :=
  command_coords c = Raise (KeyError k)
  /\ forall g st, parse_command g st c = Raise (KeyError k).

(** The point [(0.0, 0.0, 0.0)]. *)
Definition origin : point := Point (Some 0%float) (Some 0%float) (Some 0%float).

(** A command for which the loop of [parse] builds a Movement: the parser
    has a position, the command has a destination, and the two differ. *)
Definition moves (st : state) (c : command) : Prop :=
  exists s d, self_src (self st) = Some s /\ command_coords c = Ok (Some d)
              /\ point_eqb s d = false.

(** The layers and the pending movements, in this order, are the movements
    appended so far, and no closed layer is empty. *)
Definition partitioned (st : state) : Prop :=
  concat (layers st) ++ movements st = emitted st
  /\ Forall (fun layer => layer <> []) (layers st).

(** The destinations of the commands that build a Movement, in the order
    of the commands, for a parser that starts at position [pos]. *)
Fixpoint destinations (pos : option point) (cmds : list command) : list point :=
  match cmds with
  | [] => []
  | c :: rest =>
      match command_coords c with
      | Ok (Some d) =>
          match pos with
          | Some s =>
              if point_eqb s d then destinations (Some d) rest
              else d :: destinations (Some d) rest
          | None => destinations (Some d) rest
          end
      | _ => destinations pos rest
      end
  end.

(** A namespace in which [delta_e] is bound to a float, as a caller of the
    module can arrange. *)
Definition with_delta_e (v : float) : namespace :=
  {| global_delta_e := Some (Some v); global_GcodeParseError := None |}.

(** Sample programs. *)
Definition two_moves : string :=
  "G1 X0 Y0 Z0 E5.0 F1200" +:+ LF +:+ "G1 X10 Y0 Z0 E7.5 F1200".

(** A move from Z 0.0 to Z 0.05, and a move from Z 0.0 to Z 0.2. *)
Definition small_step : string :=
  "G1 X0 Y0 Z0.0 E0 F1200" +:+ LF +:+ "G1 X10 Y0 Z0.05 E1 F1200".

Definition z_jump : string :=
  "G1 X0 Y0 Z0.0 E0 F1200" +:+ LF +:+ "G1 X10 Y0 Z0.2 E1 F1200".



Definition comments_only : string :=
  "; generated by a slicer" +:+ LF +:+ LF +:+ "(<layer> 0.2 )".

Definition no_z : string := "G1 X0 Y0 E1 F1200".

(** A parser that moved from the origin to [(10, 0, 0.05)] and holds that
    movement in its pending layer. *)
Definition first_stop : point := Point (Some 10%float) (Some 0%float) (Some 0.05%float).

Definition pending_move : Movement :=
  mkMovement origin first_stop (Some 1%float) (Some 1200%float) 0.

Definition pending_state : state :=
  State (Parser (Some first_stop) (Some 1%float) 0) [] [pending_move] [pending_move].



Definition marker_after_reset : command :=
  Command "G92" (<["E" := Some 0%float]> (<["F" := Some 1200%float]> ∅)) "(<layer>".

(** A program whose fourth line has a malformed argument. *)
Definition malformed_program : list string :=
  ["G1 X0 Y0 Z0"; "G1 X10 Y0 Z0.05 E1.0 F1200 ; wipe"; "(<layer>"; "G1 X1 E1.2.3"].

(** ** Vocabulary of the further properties *)

(** A character that starts a comment. *)
Definition opens_comment (c : ascii) : bool := Ascii.eqb c ";" || Ascii.eqb c "(".

(** The longest prefix of [s] with no character that satisfies [P], and the
    rest of [s]. *)
Fixpoint break_at (P : ascii -> bool) (s : string) : string * string :=
  match s with
  | "" => ("", "")
  | String c rest =>
      if P c then ("", s)
      else let '(a, b) := break_at P rest in (String c a, b)
  end.

(** The value an argument token stands for: [None] for a bare letter. *)
Definition token_value (py_float : string -> conversion) (token : string)
  : option float :=
  if bool_decide (Py.drop 1 token = "") then None
  else match py_float (Py.drop 1 token) with
       | Float v => Some v
       | ValueError _ => None
       end.

(** The value of the last token of [tokens] that starts with the letter
    [key], after [start]. *)
Definition last_value (py_float : string -> conversion) (key : string)
    (start : option (option float)) (tokens : list string)
  : option (option float) :=
  fold_left
    (fun found token =>
       if bool_decide (Py.take 1 token = key)
       then Some (token_value py_float token) else found)
    tokens start.

(** The trigger of the first rule of a table that matches a command. *)
Fixpoint first_trigger (rules : list (trigger * (command -> Z -> Z)))
    (c : command) : option trigger :=
  match rules with
  | [] => None
  | (t, _) :: rest => if triggered t c then Some t else first_trigger rest c
  end.

(** The exceptions that a parse can end in when the namespace is the
    module's own. *)
Definition shipped_error (e : exn) : Prop :=
  (exists key, e = KeyError key /\ In key ["X"; "Y"; "Z"; "E"; "F"])
  \/ e = NameError "delta_e"
  \/ e = NameError "GcodeParseError"
  \/ exists msg, e = GcodeParserError msg.

(** The position of a parser after the commands [cmds], from [pos]. *)
Fixpoint last_position (pos : option point) (cmds : list command) : option point :=
  match cmds with
  | [] => pos
  | c :: rest =>
      match command_coords c with
      | Ok (Some d) => last_position (Some d) rest
      | _ => last_position pos rest
      end
  end.

(** ** Strings *)

Lemma app_cons_str (x : ascii) (a b : string) : String x a +:+ b = String x (a +:+ b).
Proof. reflexivity. Qed.

Lemma app_nil_l_str (a : string) : "" +:+ a = a.
Proof. reflexivity. Qed.

Lemma app_assoc_str (a b c : string) : (a +:+ b) +:+ c = a +:+ (b +:+ c).
Proof.
  induction a as [|x a IH]; [reflexivity|].
  now rewrite !app_cons_str, IH.
Qed.

Lemma app_nil_r_str (a : string) : a +:+ "" = a.
Proof.
  induction a as [|x a IH]; [reflexivity|].
  now rewrite app_cons_str, IH.
Qed.

Lemma take_drop (n : nat) (s : string) : Py.take n s +:+ Py.drop n s = s.
Proof.
  revert s; induction n as [|n IH]; intros [|c s]; try reflexivity.
  change (String c (Py.take n s +:+ Py.drop n s) = String c s).
  now rewrite IH.
Qed.

Lemma slice_to_from (i : Z) (s : string) : Py.slice_to i s +:+ Py.slice_from i s = s.
Proof. apply take_drop. Qed.

(** C10. The comment split loses nothing: the command portion followed by
    the comment is the line, character for character. *)
Theorem split_comment_lossless (line : string) :
  fst (split_comment line) +:+ snd (split_comment line) = line.
Proof.
  unfold split_comment.
  destruct (0 <=? Py.find ";" line) eqn:Hsemi.
  - destruct (0 <=? Py.find "(" (Py.slice_to (Py.find ";" line) line)); cbn.
    + rewrite <- app_assoc_str, slice_to_from. apply slice_to_from.
    + apply slice_to_from.
  - destruct (0 <=? Py.find "(" line); cbn.
    + rewrite app_nil_r_str. apply slice_to_from.
    + apply app_nil_r_str.
Qed.

(** ** The line splitter *)

Section SplitLines.

Implicit Types (s t a b : string) (c : ascii) (P : ascii -> bool).

Lemma forall_chars_app P a b :
  forall_chars P (a +:+ b) = forall_chars P a && forall_chars P b.
Proof.
  induction a as [|x a IH]; [reflexivity|].
  rewrite app_cons_str. cbn. now rewrite IH, andb_assoc.
Qed.

Lemma forall_chars_weaken P (Q : ascii -> bool) s :
  (forall c, P c = true -> Q c = true) ->
  forall_chars P s = true -> forall_chars Q s = true.
Proof.
  intros HPQ. induction s as [|x s IH]; [reflexivity|]. cbn.
  rewrite !andb_true_iff. intros [Hx Hs]. auto.
Qed.

(** Replacing keeps a property that the characters of the text and of the
    replacement have. *)
Lemma replace_from_chars P old new skip s :
  forall_chars P new = true -> forall_chars P s = true ->
  forall_chars P (Py.replace_from old new skip s) = true.
Proof.
  intros Hnew. revert skip. induction s as [|x s IH]; intros skip Hs; [reflexivity|].
  cbn in Hs. apply andb_true_iff in Hs as [Hx Hs].
  destruct skip as [|k]; cbn [Py.replace_from]; [|now apply IH].
  destruct (String.prefix old (String x s)).
  - rewrite forall_chars_app, Hnew. now apply IH.
  - cbn. rewrite Hx. now apply IH.
Qed.

Lemma prefix_nil s : String.prefix "" s = true.
Proof. now destruct s. Qed.

Lemma prefix_cons c old x s :
  String.prefix (String c old) (String x s) = Ascii.eqb c x && String.prefix old s.
Proof.
  cbn. destruct (ascii_dec c x) as [->|Hne].
  - now rewrite Ascii.eqb_refl.
  - apply Ascii.eqb_neq in Hne. now rewrite Hne.
Qed.

Lemma prefix_char c x s :
  String.prefix (String c "") (String x s) = Ascii.eqb c x.
Proof. now rewrite prefix_cons, prefix_nil, andb_true_r. Qed.

(** Replacing a character by a string without it leaves none of it. *)
Lemma replace_char_gone c new s :
  forall_chars (fun x => negb (Ascii.eqb c x)) new = true ->
  forall_chars (fun x => negb (Ascii.eqb c x)) (Py.replace (String c "") new s) = true.
Proof.
  intros Hnew. unfold Py.replace. induction s as [|x s IH]; [reflexivity|].
  cbn [Py.replace_from]. rewrite prefix_char.
  destruct (Ascii.eqb c x) eqn:Hcx.
  - rewrite forall_chars_app, Hnew. exact IH.
  - cbn. now rewrite Hcx, IH.
Qed.

(** A text with no occurrence of the first character of [old] is left as
    it is, and what follows it is replaced on its own. *)
Lemma replace_from_skip_prefix c old new a t :
  forall_chars (fun x => negb (Ascii.eqb c x)) a = true ->
  Py.replace_from (String c old) new 0 (a +:+ t)
  = a +:+ Py.replace_from (String c old) new 0 t.
Proof.
  induction a as [|x a IH]; intros Ha; [reflexivity|].
  cbn in Ha. apply andb_true_iff in Ha as [Hx Ha].
  rewrite !app_cons_str. cbn [Py.replace_from].
  replace (String.prefix (String c old) (String x (a +:+ t))) with false.
  - now rewrite IH.
  - cbn. destruct (ascii_dec c x) as [->|]; [|reflexivity].
    now rewrite Ascii.eqb_refl in Hx.
Qed.

Lemma replace_from_unchanged c old new b :
  forall_chars (fun x => negb (Ascii.eqb c x)) b = true ->
  Py.replace_from (String c old) new 0 b = b.
Proof.
  intros Hb. rewrite <- (app_nil_r_str b) at 1.
  rewrite replace_from_skip_prefix by assumption. cbn. apply app_nil_r_str.
Qed.

Lemma split_not_nil c s : Py.split c s <> [].
Proof.
  destruct s as [|x s]; cbn; [discriminate|].
  destruct (Ascii.eqb x c); [discriminate|].
  destruct (Py.split c s); discriminate.
Qed.

(** The pieces of a split hold no separator, and only characters of the
    text. *)
Lemma split_chars P c s :
  forall_chars P s = true ->
  Forall (fun l => forall_chars P l = true) (Py.split c s).
Proof.
  induction s as [|x s IH]; intros Hs; cbn.
  - repeat constructor.
  - cbn in Hs. apply andb_true_iff in Hs as [Hx Hs]. specialize (IH Hs).
    destruct (Ascii.eqb x c).
    + constructor; [reflexivity | exact IH].
    + destruct (Py.split c s) as [|w ws].
      * repeat constructor. cbn. now rewrite Hx.
      * inversion IH; subst. constructor; [cbn; now rewrite Hx | assumption].
Qed.

Lemma split_separator_free c s :
  Forall (fun l => forall_chars (fun x => negb (Ascii.eqb x c)) l = true)
         (Py.split c s).
Proof.
  induction s as [|x s IH]; cbn.
  - repeat constructor.
  - destruct (Ascii.eqb x c) eqn:Hx.
    + constructor; [reflexivity | exact IH].
    + destruct (Py.split c s) as [|w ws].
      * repeat constructor. cbn. now rewrite Hx.
      * inversion IH; subst. constructor; [cbn; now rewrite Hx | assumption].
Qed.

Lemma join_cons (sep x y : string) (l : list string) :
  String.concat sep (x :: y :: l) = x +:+ sep +:+ String.concat sep (y :: l).
Proof. reflexivity. Qed.

(** Joining the pieces with the separator gives the text back. *)
Lemma join_split c s : String.concat (String c "") (Py.split c s) = s.
Proof.
  induction s as [|x s IH]; [reflexivity|]. cbn [Py.split].
  pose proof (split_not_nil c s) as Hnil.
  destruct (Py.split c s) as [|w ws] eqn:Hsp; [contradiction|].
  destruct (Ascii.eqb_spec x c) as [->|Hne].
  - rewrite join_cons, IH. reflexivity.
  - destruct ws as [|w' ws].
    + cbn in IH |- *. now rewrite IH.
    + rewrite join_cons in IH |- *. rewrite app_cons_str. now rewrite IH.
Qed.

Lemma split_one c b :
  forall_chars (fun x => negb (Ascii.eqb x c)) b = true -> Py.split c b = [b].
Proof.
  induction b as [|x b IH]; intros Hb; [reflexivity|].
  cbn in Hb. apply andb_true_iff in Hb as [Hx Hb].
  cbn. apply negb_true_iff in Hx. rewrite Hx, IH by assumption. reflexivity.
Qed.

Lemma split_two c a b :
  forall_chars (fun x => negb (Ascii.eqb x c)) a = true ->
  forall_chars (fun x => negb (Ascii.eqb x c)) b = true ->
  Py.split c (a +:+ String c b) = [a; b].
Proof.
  intros Ha Hb. induction a as [|x a IH].
  - rewrite app_nil_l_str. cbn. now rewrite Ascii.eqb_refl, split_one.
  - cbn in Ha. apply andb_true_iff in Ha as [Hx Ha].
    rewrite app_cons_str. cbn. apply negb_true_iff in Hx.
    now rewrite Hx, IH.
Qed.

End SplitLines.

Section Terminators.

Implicit Types (a b t : string).

Lemma separator_free_no_cr a : separator_free a = true -> forall_chars no_cr a = true.
Proof.
  apply forall_chars_weaken. intros c. unfold is_separator, no_cr.
  rewrite (Ascii.eqb_sym "013" c). now destruct (Ascii.eqb c "013").
Qed.

Lemma separator_free_no_lf a : separator_free a = true -> forall_chars no_lf a = true.
Proof.
  apply forall_chars_weaken. intros c. unfold is_separator, no_lf.
  rewrite (Ascii.eqb_sym "010" c).
  destruct (Ascii.eqb c "010"); [|reflexivity]. now rewrite orb_true_r.
Qed.

Lemma separator_free_split a :
  separator_free a = true ->
  forall_chars (fun x => negb (Ascii.eqb x "010")) a = true.
Proof.
  apply forall_chars_weaken. intros c. unfold is_separator.
  destruct (Ascii.eqb c "010"); [|reflexivity]. now rewrite orb_true_r.
Qed.

Lemma forall_chars_both (P Q : ascii -> bool) a :
  forall_chars P a = true -> forall_chars Q a = true ->
  forall_chars (fun c => P c && Q c) a = true.
Proof.
  induction a as [|x a IH]; [reflexivity|]. cbn.
  rewrite !andb_true_iff. intros [HP Ha] [HQ Hb]. auto.
Qed.

(** [content.replace('\r', '\n')], one character at a time. *)
Lemma replace_cr_at_cr t :
  Py.replace_from CR LF 0 (String "013" t) = String "010" (Py.replace_from CR LF 0 t).
Proof. unfold CR. cbn [Py.replace_from]. now rewrite prefix_char. Qed.

Lemma replace_cr_at_lf t :
  Py.replace_from CR LF 0 (String "010" t) = String "010" (Py.replace_from CR LF 0 t).
Proof. unfold CR. cbn [Py.replace_from]. now rewrite prefix_char. Qed.

Lemma replace_cr_unchanged b :
  separator_free b = true -> Py.replace_from CR LF 0 b = b.
Proof. intros Hb. apply replace_from_unchanged. now apply separator_free_no_cr. Qed.

Lemma replace_cr_prefix a t :
  separator_free a = true ->
  Py.replace CR LF (a +:+ t) = a +:+ Py.replace_from CR LF 0 t.
Proof. intros Ha. apply replace_from_skip_prefix. now apply separator_free_no_cr. Qed.

(** [.replace('\n\n', '\n')] around one newline and around two. *)
Lemma collapse_prefix a t :
  separator_free a = true ->
  Py.replace (LF +:+ LF) LF (a +:+ t) = a +:+ Py.replace_from (LF +:+ LF) LF 0 t.
Proof. intros Ha. apply replace_from_skip_prefix. now apply separator_free_no_lf. Qed.

Lemma collapse_unchanged b :
  separator_free b = true -> Py.replace_from (LF +:+ LF) LF 0 b = b.
Proof. intros Hb. apply replace_from_unchanged. now apply separator_free_no_lf. Qed.

Lemma replace_from_here old new (x : ascii) t :
  Py.replace_from old new 0 (String x t)
  = if String.prefix old (String x t)
    then new +:+ Py.replace_from old new (String.length old - 1) t
    else String x (Py.replace_from old new 0 t).
Proof. reflexivity. Qed.

Lemma replace_from_skip old new k (x : ascii) t :
  Py.replace_from old new (S k) (String x t) = Py.replace_from old new k t.
Proof. reflexivity. Qed.

Lemma collapse_two b :
  separator_free b = true ->
  Py.replace_from (LF +:+ LF) LF 0 (String "010" (String "010" b)) = String "010" b.
Proof.
  intros Hb. pose proof (collapse_unchanged b Hb) as Hu.
  change (LF +:+ LF) with (String "010" LF) in *.
  rewrite replace_from_here, prefix_cons.
  change (String.prefix LF (String "010" b)) with (String.prefix (String "010" "") (String "010" b)).
  rewrite prefix_char. change (String.length (String "010" LF) - 1)%nat with 1%nat.
  rewrite replace_from_skip, Hu. reflexivity.
Qed.

Lemma collapse_one b :
  separator_free b = true ->
  Py.replace_from (LF +:+ LF) LF 0 (String "010" b) = String "010" b.
Proof.
  intros Hb. pose proof (collapse_unchanged b Hb) as Hu.
  change (LF +:+ LF) with (String "010" LF) in *.
  rewrite replace_from_here, prefix_cons, Hu.
  replace (String.prefix LF b) with false; [reflexivity|].
  destruct b as [|x b]; [reflexivity|].
  change (String.prefix LF (String x b)) with (String.prefix (String "010" "") (String x b)).
  rewrite prefix_char.
  apply separator_free_no_lf in Hb. cbn in Hb.
  apply andb_true_iff in Hb as [Hx _]. apply negb_true_iff in Hx. now rewrite Hx.
Qed.

(** Two separator characters in a row separate two lines, with no line
    between them. *)
Lemma split_lines_pair (s1 s2 : ascii) a b :
  is_separator s1 = true -> is_separator s2 = true ->
  separator_free a = true -> separator_free b = true ->
  split_lines (a +:+ String s1 (String s2 b)) = [a; b].
Proof.
  intros H1 H2 Ha Hb. unfold split_lines.
  assert (Hcr : Py.replace CR LF (a +:+ String s1 (String s2 b))
                = a +:+ String "010" (String "010" b)).
  { rewrite (replace_cr_prefix a _ Ha). f_equal.
    unfold is_separator in H1, H2.
    apply orb_true_iff in H1 as [->%Ascii.eqb_eq | ->%Ascii.eqb_eq];
      apply orb_true_iff in H2 as [->%Ascii.eqb_eq | ->%Ascii.eqb_eq];
      repeat (rewrite replace_cr_at_cr || rewrite replace_cr_at_lf);
      rewrite (replace_cr_unchanged b Hb); reflexivity. }
  rewrite Hcr, (collapse_prefix a _ Ha), (collapse_two b Hb).
  apply split_two; now apply separator_free_split.
Qed.

(** One separator character separates two lines. *)
Lemma split_lines_single (s1 : ascii) a b :
  is_separator s1 = true ->
  separator_free a = true -> separator_free b = true ->
  split_lines (a +:+ String s1 b) = [a; b].
Proof.
  intros H1 Ha Hb. unfold split_lines.
  assert (Hcr : Py.replace CR LF (a +:+ String s1 b) = a +:+ String "010" b).
  { rewrite (replace_cr_prefix a _ Ha). f_equal.
    unfold is_separator in H1.
    apply orb_true_iff in H1 as [->%Ascii.eqb_eq | ->%Ascii.eqb_eq];
      repeat (rewrite replace_cr_at_cr || rewrite replace_cr_at_lf);
      rewrite (replace_cr_unchanged b Hb); reflexivity. }
  rewrite Hcr, (collapse_prefix a _ Ha), (collapse_one b Hb).
  apply split_two; now apply separator_free_split.
Qed.

(** No returned line holds a separator character. *)
Lemma split_lines_separator_free content :
  Forall (fun l => separator_free l = true) (split_lines content).
Proof.
  unfold split_lines.
  set (t := Py.replace (LF +:+ LF) LF (Py.replace CR LF content)).
  assert (Ht : forall_chars no_cr t = true).
  { apply replace_from_chars; [reflexivity|]. now apply replace_char_gone. }
  pose proof (split_chars no_cr "010" t Ht) as Hcr.
  pose proof (split_separator_free "010" t) as Hlf.
  rewrite Forall_forall in Hcr, Hlf |- *. intros l Hl.
  eapply forall_chars_weaken;
    [|apply (forall_chars_both _ _ _ (Hcr l Hl) (Hlf l Hl))].
  intros c. unfold no_cr, is_separator. cbv beta.
  rewrite (Ascii.eqb_sym "013" c).
  destruct (Ascii.eqb c "013"), (Ascii.eqb c "010"); intros H; now inversion H.
Qed.

End Terminators.

(** C8, as amended. The line splitter returns, for every text, at least one
    line; no line holds a carriage return or a newline, and joining the
    lines with newlines gives the normalized text. Between two texts without
    separators, a carriage return followed by a newline, a lone carriage
    return and a lone newline each separate two lines, and so do two
    separator characters in a row, with no blank line between. The empty
    text yields one line, the empty string. *)
Theorem split_lines_separators :
  (forall content : string,
      split_lines content <> []
      /\ Forall (fun l => separator_free l = true) (split_lines content)
      /\ String.concat LF (split_lines content)
         = Py.replace (LF +:+ LF) LF (Py.replace CR LF content))
  /\ (forall a b : string,
        separator_free a = true -> separator_free b = true ->
        split_lines (a +:+ CR +:+ LF +:+ b) = [a; b]
        /\ split_lines (a +:+ CR +:+ b) = [a; b]
        /\ split_lines (a +:+ LF +:+ b) = [a; b]
        /\ split_lines (a +:+ LF +:+ LF +:+ b) = [a; b]
        /\ split_lines (a +:+ CR +:+ CR +:+ b) = [a; b]
        /\ split_lines (a +:+ LF +:+ CR +:+ b) = [a; b])
  /\ split_lines "" = [""].
Proof.
  split; [|split; [|reflexivity]].
  - intros content. split; [apply split_not_nil|].
    split; [apply split_lines_separator_free | apply join_split].
  - intros a b Ha Hb.
    repeat split;
      first [ now apply (split_lines_pair "013" "010")
            | now apply (split_lines_single "013")
            | now apply (split_lines_single "010")
            | now apply (split_lines_pair "010" "010")
            | now apply (split_lines_pair "013" "013")
            | now apply (split_lines_pair "010" "013") ].
Qed.

Lemma split_lines_separators_witness :
  split_lines ("G1 X0" +:+ CR +:+ LF +:+ "G1 X1") = ["G1 X0"; "G1 X1"]
  /\ split_lines ("G1 X0" +:+ LF +:+ LF +:+ "G1 X1") = ["G1 X0"; "G1 X1"].
Proof.
  destruct split_lines_separators as (_ & Hsep & _).
  destruct (Hsep "G1 X0" "G1 X1" eq_refl eq_refl) as (H1 & _ & _ & H4 & _).
  exact (conj H1 H4).
Defined.

(** Only the two newlines of a pair are merged: of three newlines in a row
    one blank line is left, and two carriage-return/newline pairs in a row
    leave one as well. *)
Lemma split_lines_longer_runs :
  split_lines ("a" +:+ LF +:+ LF +:+ LF +:+ "b") = ["a"; ""; "b"]
  /\ split_lines ("a" +:+ CR +:+ LF +:+ CR +:+ LF +:+ "b") = ["a"; ""; "b"].
Proof. split; reflexivity. Qed.

(** C8, as stated, fails on the empty text: it yields one line, not none. *)
Lemma split_lines_empty_text_one_line :
  split_lines "" = [""] /\ length (split_lines "") <> 0%nat.
Proof. split; [reflexivity | discriminate]. Qed.

(** ** Flags *)

Lemma land_pow2 (f k : Z) :
  0 <= k -> Z.land f (2 ^ k) = if Z.testbit f k then 2 ^ k else 0.
Proof.
  intros Hk. apply Z.bits_inj'. intros n Hn.
  rewrite Z.land_spec, Z.pow2_bits_eqb by assumption.
  destruct (Z.eqb_spec k n) as [->|Hne].
  - destruct (Z.testbit f n); [|now rewrite Z.bits_0].
    now rewrite Z.pow2_bits_eqb, Z.eqb_refl by assumption.
  - rewrite andb_false_r. destruct (Z.testbit f k); [|now rewrite Z.bits_0].
    rewrite Z.pow2_bits_eqb by assumption. symmetry. now apply Z.eqb_neq.
Qed.

Lemma has_flag_testbit (f k : Z) : 0 <= k -> has_flag f (2 ^ k) = Z.testbit f k.
Proof.
  intros Hk. unfold has_flag. rewrite land_pow2 by assumption.
  destruct (Z.testbit f k); [|reflexivity].
  apply negb_true_iff, Z.eqb_neq. pose proof (Z.pow_pos_nonneg 2 k). lia.
Qed.

Lemma has_outer_testbit (f : Z) : has_flag f FLAG_PERIMETER_OUTER = Z.testbit f 1.
Proof. apply (has_flag_testbit f 1). lia. Qed.

Lemma has_outer_set (f flag : Z) :
  has_flag (Z.lor f flag) FLAG_PERIMETER_OUTER
  = has_flag f FLAG_PERIMETER_OUTER || Z.testbit flag 1.
Proof. now rewrite !has_outer_testbit, Z.lor_spec. Qed.

Lemma has_outer_clear (f flag : Z) :
  has_flag (Z.land f (Z.lnot flag)) FLAG_PERIMETER_OUTER
  = has_flag f FLAG_PERIMETER_OUTER && negb (Z.testbit flag 1).
Proof. rewrite !has_outer_testbit, Z.land_spec, Z.lnot_spec; [reflexivity | lia]. Qed.

(** [set_flags] applies the first matching rule of the table. *)
Lemma set_flags_first_match (flags : Z) (c : command) :
  set_flags flags c = first_match flag_rules c flags.
Proof.
  unfold set_flags, flag_rules, first_match, triggered,
    marker_loop_start, marker_loop_end, marker_perimeter_start,
    marker_perimeter_end, marker_surrounding_loop_start,
    marker_surrounding_loop_end, set_bit, clear_bit.
  repeat match goal with
         | |- context [if ?b then _ else _] => destruct b; try reflexivity
         end.
  rewrite <- Z.land_assoc. reflexivity.
Qed.

(** [set_flags] turns the outer-perimeter bit on for no other comment than
    one with the perimeter-start marker and the word [outer]. *)
Lemma set_flags_outer_only (flags : Z) (c : command) :
  has_flag (set_flags flags c) FLAG_PERIMETER_OUTER = true ->
  has_flag flags FLAG_PERIMETER_OUTER = true
  \/ (Py.contains marker_perimeter_start (comment c) = true
      /\ Py.contains "outer" (comment c) = true).
Proof.
  unfold set_flags.
  repeat match goal with
         | |- context [if ?b then _ else _] => destruct b eqn:?
         end;
    rewrite ?has_outer_set, ?has_outer_clear;
    change (Z.testbit FLAG_LOOP 1) with false;
    change (Z.testbit FLAG_PERIMETER 1) with false;
    change (Z.testbit FLAG_SURROUND_LOOP 1) with false;
    change (Z.testbit FLAG_EXTRUDER_ON 1) with false;
    rewrite ?orb_false_r, ?andb_true_r; auto.
  rewrite andb_true_iff. intros [H _]. now left.
Qed.

(** C7. The outer-perimeter flag is set only by a comment that holds the
    perimeter-start marker together with the word [outer]; without the
    marker, [outer] in a comment sets nothing; and the flag rules are tried
    in the order of the table, the first that matches being the only one
    applied. *)
Theorem set_flags_perimeter_outer (flags : Z) (c : command) :
  set_flags flags c = first_match flag_rules c flags
  /\ (has_flag flags FLAG_PERIMETER_OUTER = false ->
      has_flag (set_flags flags c) FLAG_PERIMETER_OUTER = true ->
      Py.contains marker_perimeter_start (comment c) = true
      /\ Py.contains "outer" (comment c) = true)
  /\ (Py.contains marker_perimeter_start (comment c) = false ->
      has_flag (set_flags flags c) FLAG_PERIMETER_OUTER = true ->
      has_flag flags FLAG_PERIMETER_OUTER = true).
Proof.
  split; [apply set_flags_first_match|]. split.
  - intros Hoff Hon. destruct (set_flags_outer_only flags c Hon) as [H|H]; [|exact H].
    congruence.
  - intros Hno Hon. destruct (set_flags_outer_only flags c Hon) as [H|[H _]]; [exact H|].
    congruence.
Qed.

Lemma set_flags_perimeter_outer_witness :
  Py.contains marker_perimeter_start "(<perimeter> outer )" = true
  /\ Py.contains "outer" "(<perimeter> outer )" = true.
Proof.
  exact (proj1 (proj2 (set_flags_perimeter_outer 0
           (Command "" ∅ "(<perimeter> outer )"))) eq_refl eq_refl).
Defined.

(** ** Words *)

Lemma flush_not_empty (word : string) : Forall (fun w => w <> "") (Py.flush word).
Proof. destruct word; repeat constructor. discriminate. Qed.

Lemma split_runs_not_empty (s word : string) :
  Forall (fun w => w <> "") (Py.split_runs word s).
Proof.
  revert word. induction s as [|x s IH]; intros word; cbn [Py.split_runs].
  - apply flush_not_empty.
  - destruct (Py.is_whitespace x); [|apply IH].
    apply Forall_app. split; [apply flush_not_empty | apply IH].
Qed.

(** The tokens of [s.split()] are not empty. *)
Lemma split_whitespace_not_empty (s : string) :
  Forall (fun w => w <> "") (Py.split_whitespace s).
Proof. apply split_runs_not_empty. Qed.

Section Words.

Implicit Types (s w word : string) (P : ascii -> bool).

Lemma snoc_not_empty word (c : ascii) : word +:+ String c "" <> "".
Proof. destruct word; discriminate. Qed.

Lemma split_runs_not_nil s word : word <> "" -> Py.split_runs word s <> [].
Proof.
  revert word. induction s as [|x s IH]; intros word Hw; cbn [Py.split_runs].
  - destruct word; [contradiction | discriminate].
  - destruct (Py.is_whitespace x); [|apply IH, snoc_not_empty].
    destruct word; [contradiction | discriminate].
Qed.

(** [s.split()] is empty exactly for a text of whitespace. *)
Lemma split_whitespace_nil s :
  Py.split_whitespace s = [] <-> forall_chars Py.is_whitespace s = true.
Proof.
  unfold Py.split_whitespace.
  induction s as [|x s IH]; [easy|]. cbn [Py.split_runs forall_chars].
  destruct (Py.is_whitespace x) eqn:Hx; cbn [Py.flush app andb].
  - exact IH.
  - split; [|discriminate]. intros H.
    now apply (split_runs_not_nil s (String x "")) in H.
Qed.

Lemma flush_chars P word :
  forall_chars P word = true -> Forall (fun w => forall_chars P w = true) (Py.flush word).
Proof. intros H. destruct word; repeat constructor. exact H. Qed.

Lemma split_runs_chars P s word :
  forall_chars (fun c => negb (Py.is_whitespace c) && P c) word = true ->
  forall_chars P s = true ->
  Forall (fun w => forall_chars (fun c => negb (Py.is_whitespace c) && P c) w = true)
         (Py.split_runs word s).
Proof.
  revert word. induction s as [|x s IH]; intros word Hword Hs; cbn [Py.split_runs].
  - now apply flush_chars.
  - cbn in Hs. apply andb_true_iff in Hs as [Hx Hs].
    destruct (Py.is_whitespace x) eqn:Hsp.
    + apply Forall_app. split; [now apply flush_chars | now apply IH].
    + apply IH; [|assumption]. rewrite forall_chars_app, Hword. cbn.
      now rewrite Hsp, Hx.
Qed.

(** The tokens of [s.split()] hold no whitespace, and only characters of
    the text. *)
Lemma split_whitespace_chars P s :
  forall_chars P s = true ->
  Forall (fun w => forall_chars (fun c => negb (Py.is_whitespace c) && P c) w = true)
         (Py.split_whitespace s).
Proof. now apply split_runs_chars. Qed.

Lemma space_opens_no_comment (c : ascii) :
  Py.is_whitespace c = true -> negb (opens_comment c) = true.
Proof.
  destruct c as [[] [] [] [] [] [] [] []]; vm_compute; intros H;
    (reflexivity || discriminate H).
Qed.

End Words.


(** ** The loop of [parse] *)

Ltac unfold_bind := unfold mbind, result_bind in *; cbn beta iota in *.

Lemma getitem_ok (d : gmap string (option float)) (k : string) (v : option float) :
  getitem d k = Ok v <-> d !! k = Some v.
Proof. unfold getitem. destruct (d !! k); split; congruence. Qed.

Lemma getitem_raise (d : gmap string (option float)) (k : string) :
  d !! k = None -> getitem d k = Raise (KeyError k).
Proof. unfold getitem. now intros ->. Qed.

(** What [command_coords] returns, by the command word and the arguments. *)
Lemma command_coords_ok (c : command) (d : option point) :
  command_coords c = Ok d ->
  (gcode c <> "G1" /\ d = None)
  \/ (gcode c = "G1" /\ exists x y z,
        args c !! "X" = Some x /\ args c !! "Y" = Some y /\ args c !! "Z" = Some z
        /\ d = Some (Point x y z)).
Proof.
  unfold command_coords. destruct (String.eqb_spec (gcode c) "G1") as [Hw|Hw].
  - unfold getitem.
    destruct (args c !! "X") as [x|]; [|discriminate].
    destruct (args c !! "Y") as [y|]; [|discriminate].
    destruct (args c !! "Z") as [z|]; [|discriminate].
    unfold_bind. intros [= <-]. right. split; [assumption|]. now exists x, y, z.
  - intros [= <-]. now left.
Qed.

(** A turn of the loop that left the layers and the movements alone. *)
Ltac still H :=
  injection H as <-; split; [reflexivity|]; right;
  split; [intros (? & ? & ? & ? & ?); congruence | now repeat split].

Section Step.

Variable g : namespace.

(** The two ways one turn of the loop ends normally: a Movement was built
    and appended, or the layers and the pending movements are as before. *)
Lemma parse_command_ok (st st' : state) (c : command) :
  parse_command g st c = Ok st' ->
  exists d e f,
    command_coords c = Ok d /\ args c !! "E" = Some e /\ args c !! "F" = Some f
    /\ self st' = Parser (match d with Some _ => d | None => self_src (self st) end)
                    e (set_flags (self_flags (self st)) c)
    /\ ((exists s p de new,
            self_src (self st) = Some s /\ d = Some p /\ point_eqb s p = false
            /\ global_delta_e g = Some de
            /\ is_new_layer (Some s) p (gcode c) (comment c) = Ok new
            /\ let move := mkMovement s p de f (set_flags (self_flags (self st)) c) in
               emitted st' = emitted st ++ [move]
               /\ layers st'
                  = (if new then layers st ++ [movements st ++ [move]] else layers st)
               /\ movements st' = (if new then [] else movements st ++ [move]))
        \/ (~ moves st c /\ layers st' = layers st
            /\ movements st' = movements st /\ emitted st' = emitted st)).
Proof.
  unfold parse_command.
  destruct (command_coords c) as [d|] eqn:Hd; [|discriminate].
  unfold getitem.
  destruct (args c !! "E") as [e|] eqn:He; [|discriminate].
  destruct (args c !! "F") as [f|] eqn:Hf; [|discriminate].
  unfold_bind. intros H. exists d, e, f. repeat (split; [reflexivity|]).
  destruct (self_src (self st)) as [s|] eqn:Hs; [destruct d as [p|]|].
  - destruct (point_eqb s p) eqn:Hsp; cbn [negb] in H.
    + still H.
    + unfold load_global in H.
      destruct (global_delta_e g) as [de|] eqn:Hg; [|discriminate].
      destruct (is_new_layer (Some s) p (gcode c) (comment c)) as [new|] eqn:Hnew;
        [|discriminate].
      destruct new; injection H as <-; (split; [reflexivity|]); left;
        [exists s, p, de, true | exists s, p, de, false]; cbn;
        repeat split; assumption.
  - still H.
  - still H.
Qed.

(** Every turn that ends normally keeps the record of movements. *)
Lemma parse_command_partitioned (st st' : state) (c : command) :
  partitioned st -> parse_command g st c = Ok st' -> partitioned st'.
Proof.
  intros [Hcat Hne] H.
  destruct (parse_command_ok _ _ _ H) as (d & e & f & _ & _ & _ & _ & Hcase).
  destruct Hcase as [(s & p & de & new & _ & _ & _ & _ & _ & Hem & Hl & Hm)
                    |(_ & Hl & Hm & Hem)].
  - cbn zeta in Hem, Hl, Hm. unfold partitioned. rewrite Hem, Hl, Hm, <- Hcat.
    destruct new.
    + split.
      * rewrite concat_app. cbn. now rewrite !app_nil_r, app_assoc.
      * apply Forall_app. split; [assumption|]. constructor; [|constructor].
        now destruct (movements st).
    + split; [now rewrite app_assoc | assumption].
  - unfold partitioned. now rewrite Hl, Hm, Hem.
Qed.

Lemma parse_loop_partitioned (s : stream) (st st' : state) :
  partitioned st -> parse_loop g st s = Ok st' -> partitioned st'.
Proof.
  revert st. induction s as [|c rest IH|e]; intros st Hinv H; cbn in H.
  - now injection H as <-.
  - destruct (parse_command g st c) as [st1|] eqn:Hc; [|discriminate].
    unfold_bind. eapply IH; [|exact H]. eapply parse_command_partitioned; eassumption.
  - discriminate.
Qed.

Lemma finish_partitioned (st : state) (document : list (list Movement)) :
  partitioned st -> finish g st = Ok document ->
  concat document = emitted st /\ Forall (fun layer => layer <> []) document
  /\ document <> [].
Proof.
  intros [Hcat Hne]. unfold finish.
  destruct (movements st) as [|m ms] eqn:Hm; cbn [length Nat.ltb Nat.leb].
  - destruct (layers st) as [|l ls] eqn:Hl; cbn [length Nat.ltb Nat.leb].
    + unfold load_global. destruct (global_GcodeParseError g); discriminate.
    + intros [= <-]. rewrite app_nil_r in Hcat. now repeat split.
  - destruct (layers st ++ [m :: ms]) as [|l ls] eqn:Hl.
    { now destruct (layers st). }
    cbn [length Nat.ltb Nat.leb]. intros [= <-]. rewrite <- Hl. repeat split.
    + rewrite concat_app. cbn. now rewrite app_nil_r.
    + apply Forall_app. split; [assumption|]. now repeat constructor.
    + now destruct (layers st).
Qed.

(** The movements appended by the loop lead, in order, to the destinations
    of the commands that moved the parser. *)
Lemma parse_loop_destinations (s : stream) (st st' : state) :
  parse_loop g st s = Ok st' ->
  map dst (emitted st')
  = map dst (emitted st) ++ destinations (self_src (self st)) (yielded s).
Proof.
  revert st. induction s as [|c rest IH|e]; intros st H; cbn in H.
  - injection H as <-. cbn. now rewrite app_nil_r.
  - destruct (parse_command g st c) as [st1|] eqn:Hc; [|discriminate].
    unfold_bind. rewrite (IH _ H). cbn [yielded destinations].
    destruct (parse_command_ok _ _ _ Hc) as (d & e & f & Hd & _ & _ & Hself & Hcase).
    rewrite Hd, Hself. cbn [self_src].
    destruct Hcase as [(s & p & de & new & Hs & -> & Hne & _ & _ & Hem & _)
                      |(Hno & _ & _ & Hem)].
    + cbn zeta in Hem. rewrite Hs, Hne, Hem, map_app, <- app_assoc. reflexivity.
    + rewrite Hem. destruct d as [p|]; [|reflexivity].
      destruct (self_src (self st)) as [s|] eqn:Hs; [|reflexivity].
      destruct (point_eqb s p) eqn:Hsp; [reflexivity|].
      exfalso. apply Hno. now exists s, p.
  - discriminate.
Qed.

End Step.

(** ** Destinations and missing arguments *)

(** C1, as amended. A destination is computed for the command word [G1]
    only, from its X, Y and Z arguments when all three are present. A [G1]
    command that lacks one of them makes [command_coords], and with it the
    parse, fail with a [KeyError] for the first axis that is missing, in the
    order X, Y, Z; a command whose destination is computed, or that is no
    [G1], fails with a [KeyError] for E when it lacks E, and for F when it
    has E and lacks F. No earlier value is carried forward. *)
Theorem command_coords_destination (c : command) :
  (forall d : point,
      command_coords c = Ok (Some d) <->
      gcode c = "G1" /\ exists x y z,
        args c !! "X" = Some x /\ args c !! "Y" = Some y /\ args c !! "Z" = Some z
        /\ d = Point x y z)
  /\ (gcode c <> "G1" -> command_coords c = Ok None)
  /\ (gcode c = "G1" ->
      (args c !! "X" = None -> fails_on_key c "X")
      /\ (is_Some (args c !! "X") -> args c !! "Y" = None -> fails_on_key c "Y")
      /\ (is_Some (args c !! "X") -> is_Some (args c !! "Y") ->
          args c !! "Z" = None -> fails_on_key c "Z"))
  /\ (forall g st d, command_coords c = Ok d -> args c !! "E" = None ->
                     parse_command g st c = Raise (KeyError "E"))
  /\ (forall g st d e, command_coords c = Ok d -> args c !! "E" = Some e ->
                       args c !! "F" = None ->
                       parse_command g st c = Raise (KeyError "F")).
Proof.
  split; [|split; [|split; [|split]]].
  - intros d. split.
    + intros Hd.
      destruct (command_coords_ok _ _ Hd)
        as [[_ [=]]|[Hw (x & y & z & Hx & Hy & Hz & [= ->])]].
      split; [assumption|]. now exists x, y, z.
    + intros [Hw (x & y & z & Hx & Hy & Hz & ->)].
      unfold command_coords, getitem. now rewrite Hw, String.eqb_refl, Hx, Hy, Hz.
  - intros Hw. unfold command_coords. apply String.eqb_neq in Hw. now rewrite Hw.
  - intros Hw. unfold fails_on_key, parse_command, command_coords, getitem.
    rewrite Hw, String.eqb_refl. split; [|split].
    + intros ->. now split.
    + intros [x ->] ->. now split.
    + intros [x ->] [y ->] ->. now split.
  - intros g st d Hd He. unfold parse_command. now rewrite Hd, (getitem_raise _ _ He).
  - intros g st d e Hd He Hf. unfold parse_command.
    apply getitem_ok in He. now rewrite Hd, He, (getitem_raise _ _ Hf).
Qed.

Lemma command_coords_destination_witness :
  fails_on_key (Command "G1" {[ "X" := Some 0%float ]} "") "Y"
  /\ fails_on_key (Command "G1" {[ "Z" := Some 0%float ]} "") "X".
Proof.
  split.
  - exact (proj1 (proj2 (proj1 (proj2 (proj2
             (command_coords_destination (Command "G1" {[ "X" := Some 0%float ]} ""))))
             eq_refl))
           (mk_is_Some _ _ eq_refl) eq_refl).
  - exact (proj1 (proj1 (proj2 (proj2
             (command_coords_destination (Command "G1" {[ "Z" := Some 0%float ]} ""))))
             eq_refl)
           eq_refl).
Defined.

(** C1, as stated, fails on a [G1] command without Z: it is not passed over
    as a command without destination, the parse fails on it. *)
Lemma missing_axis_fails :
  command_coords
    (Command "G1" (<["X" := Some 0%float]> (<["Y" := Some 0%float]> ∅)) "")
  = Raise (KeyError "Z")
  /\ parse_text Literal.float_of_str gcodeparser2 no_z = Raise (KeyError "Z").
Proof. split; vm_compute; reflexivity. Qed.

(** ** The two unbound names *)

(** With [delta_e] unbound, a turn of the loop that builds a Movement
    raises [NameError]. *)
Lemma parse_command_delta_e_unbound (st : state) (c : command) (e f : option float) :
  moves st c -> args c !! "E" = Some e -> args c !! "F" = Some f ->
  parse_command gcodeparser2 st c = Raise (NameError "delta_e").
Proof.
  intros (s & d & Hs & Hd & Hne) He Hf. unfold parse_command.
  apply getitem_ok in He, Hf. rewrite Hd, He, Hf, Hs. unfold_bind.
  now rewrite Hne.
Qed.

(** C2, on the code: after a command with E5.0, a move with E7.5 builds no
    Movement with extrusion-delta 2.5; the parse raises [NameError] for
    [delta_e], and with [delta_e] bound by a caller the Movement carries that
    binding, whatever the extrusion arguments are. *)
Theorem extrusion_delta_unbound :
  parse_text Literal.float_of_str gcodeparser2 two_moves
  = Raise (NameError "delta_e")
  /\ (forall v : float, exists st,
        parse_text Literal.float_of_str (with_delta_e v) two_moves
        = Ok ([[mkMovement origin (Point (Some 10%float) (Some 0%float) (Some 0%float))
                  (Some v) (Some 1200%float) 0]], st)).
Proof.
  split; [vm_compute; reflexivity|]. intros v. eexists. vm_compute. reflexivity.
Qed.

(** C5, on the code: the move from Z 0.0 to Z 0.2 closes no layer, the
    parse raises [NameError] for [delta_e] when it builds the Movement, before
    [is_new_layer] is asked; so does the move from Z 0.0 to Z 0.05, and every
    turn of the loop that builds a Movement. Asked about the two moves,
    [is_new_layer] answers yes for the first and no for the second. *)
Theorem z_jump_name_error :
  parse_text Literal.float_of_str gcodeparser2 z_jump = Raise (NameError "delta_e")
  /\ parse_text Literal.float_of_str gcodeparser2 small_step
     = Raise (NameError "delta_e")
  /\ (forall st c e f,
        moves st c -> args c !! "E" = Some e -> args c !! "F" = Some f ->
        parse_command gcodeparser2 st c = Raise (NameError "delta_e"))
  /\ is_new_layer (Some origin)
       (Point (Some 10%float) (Some 0%float) (Some 0.2%float)) "G1" "" = Ok true
  /\ is_new_layer (Some origin)
       (Point (Some 10%float) (Some 0%float) (Some 0.05%float)) "G1" "" = Ok false.
Proof.
  do 2 (split; [vm_compute; reflexivity|]).
  split; [exact parse_command_delta_e_unbound|].
  split; vm_compute; reflexivity.
Qed.

(** With the module's namespace no turn of the loop appends a Movement. *)
Lemma parse_loop_shipped_empty (s : stream) (st st' : state) :
  layers st = [] -> movements st = [] ->
  parse_loop gcodeparser2 st s = Ok st' ->
  layers st' = [] /\ movements st' = [].
Proof.
  revert st. induction s as [|c rest IH|e]; intros st Hl Hm H; cbn in H.
  - now injection H as <-.
  - destruct (parse_command gcodeparser2 st c) as [st1|] eqn:Hc; [|discriminate].
    unfold_bind.
    destruct (parse_command_ok _ _ _ _ Hc) as (d & e & f & _ & _ & _ & _ & Hcase).
    destruct Hcase as [(s & p & de & new & _ & _ & _ & [=] & _)|(_ & Hl1 & Hm1 & _)].
    apply (IH st1); [congruence | congruence | exact H].
  - discriminate.
Qed.

(** As shipped, a parse whose loop runs to the end of the stream has no
    layers, and raises [NameError] for [GcodeParseError]. *)
Lemma parse_completed_name_error (py_float : string -> conversion) (p : parser)
    (lines : list string) (st : state) :
  parse_loop gcodeparser2 (State p [] [] []) (scan py_float lines) = Ok st ->
  parse py_float gcodeparser2 p lines = Raise (NameError "GcodeParseError").
Proof.
  intros Hloop. unfold parse. rewrite Hloop. unfold_bind.
  destruct (parse_loop_shipped_empty _ (State p [] [] []) st eq_refl eq_refl Hloop)
    as [Hl Hm].
  unfold finish. now rewrite Hl, Hm.
Qed.


(** C3, on the code: a parse that ends with no layer raises [NameError] for
    the unbound name [GcodeParseError], which is no [GcodeParserError]; so
    for the empty text and for blank lines. A text of comments and blank
    lines does not get that far, its first comment raises [KeyError] for the
    E argument. *)
Theorem no_layers_name_error :
  (forall py_float p lines st,
      parse_loop gcodeparser2 (State p [] [] []) (scan py_float lines) = Ok st ->
      parse py_float gcodeparser2 p lines = Raise (NameError "GcodeParseError"))
  /\ (forall py_float, parse_text py_float gcodeparser2 ""
                       = Raise (NameError "GcodeParseError"))
  /\ (forall py_float, parse_text py_float gcodeparser2 (LF +:+ "  " +:+ CR +:+ LF)
                       = Raise (NameError "GcodeParseError"))
  /\ is_GcodeParserError (NameError "GcodeParseError") = false
  /\ parse_text Literal.float_of_str gcodeparser2 comments_only = Raise (KeyError "E").
Proof.
  split; [exact parse_completed_name_error|].
  repeat split; intros; vm_compute; reflexivity.
Qed.

(** ** Layers *)

(** For every binding of the two names: when [parse] returns, the movements
    of the returned layers, taken layer after layer, are the movements
    appended during the parse, in the order they were appended, which is the
    order of the commands that supplied their destinations; and no returned
    layer is empty. *)
Lemma parse_layers_partition (py_float : string -> conversion) (g : namespace)
    (p : parser) (lines : list string) (document : list (list Movement)) (st : state) :
  parse py_float g p lines = Ok (document, st) ->
  concat document = emitted st
  /\ Forall (fun layer => layer <> []) document
  /\ map dst (concat document)
     = destinations (self_src p) (yielded (scan py_float lines)).
Proof.
  unfold parse. intros H.
  destruct (parse_loop g (State p [] [] []) (scan py_float lines)) as [st1|] eqn:Hloop;
    [|discriminate].
  unfold_bind. destruct (finish g st1) as [doc|] eqn:Hfin; [|discriminate].
  injection H as <- <-.
  assert (Hinit : partitioned (State p [] [] [])) by (split; [reflexivity | constructor]).
  pose proof (parse_loop_partitioned g _ _ _ Hinit Hloop) as Hinv.
  destruct (finish_partitioned g _ _ Hinv Hfin) as (Hcat & Hne & _).
  repeat split; [assumption..|].
  rewrite Hcat. apply (parse_loop_destinations g _ _ _ Hloop).
Qed.






(** ** Argument errors *)

Section Arguments.

Variable py_float : string -> conversion.

Lemma scan_arg_malformed (d : gmap string (option float)) (token : string) :
  malformed py_float token = true ->
  exists msg, py_float (Py.drop 1 token) = ValueError msg
              /\ scan_arg py_float d token = Raise (GcodeArgumentError msg).
Proof.
  unfold malformed, scan_arg. intros H. apply andb_true_iff in H as [Hrest Hconv].
  apply negb_true_iff in Hrest. rewrite Hrest.
  destruct (py_float (Py.drop 1 token)) as [v|msg]; [discriminate|]. now exists msg.
Qed.

Lemma scan_arg_well_formed (d : gmap string (option float)) (token : string) :
  token <> "" -> malformed py_float token = false ->
  exists d', scan_arg py_float d token = Ok d'.
Proof.
  unfold malformed, scan_arg. intros Hne H.
  destruct token as [|x rest]; [contradiction|]. cbn [Py.first]. unfold_bind.
  destruct (bool_decide (Py.drop 1 (String x rest) = "")); [eauto|].
  destruct (py_float (Py.drop 1 (String x rest))); [eauto | discriminate].
Qed.

(** The loop of [scan_args] stops at the first malformed token, with the
    message of its conversion; without one it returns a dict. *)
Lemma scan_args_from_malformed (tokens : list string) (token : string)
    (d : gmap string (option float)) :
  Forall (fun w => w <> "") tokens ->
  find (malformed py_float) tokens = Some token ->
  exists msg, py_float (Py.drop 1 token) = ValueError msg
              /\ scan_args_from py_float d tokens = Raise (GcodeArgumentError msg).
Proof.
  revert d. induction tokens as [|w ws IH]; intros d Hne Hfind; [discriminate|].
  inversion Hne as [|? ? Hw Hws]; subst. cbn in Hfind |- *.
  destruct (malformed py_float w) eqn:Hm.
  - injection Hfind as <-. destruct (scan_arg_malformed d w Hm) as (msg & Hconv & Hraise).
    exists msg. now rewrite Hraise.
  - destruct (scan_arg_well_formed d w Hw Hm) as (d' & Hok). rewrite Hok.
    unfold_bind. now apply IH.
Qed.

Lemma scan_args_from_well_formed (tokens : list string)
    (d : gmap string (option float)) :
  Forall (fun w => w <> "") tokens ->
  find (malformed py_float) tokens = None ->
  exists d', scan_args_from py_float d tokens = Ok d'.
Proof.
  revert d. induction tokens as [|w ws IH]; intros d Hne Hfind; [now exists d|].
  inversion Hne as [|? ? Hw Hws]; subst. cbn in Hfind |- *.
  destruct (malformed py_float w) eqn:Hm; [discriminate|].
  destruct (scan_arg_well_formed d w Hw Hm) as (d' & Hok). rewrite Hok.
  unfold_bind. now apply IH.
Qed.

(** A line has no first malformed token exactly when none of its argument
    tokens is malformed, and the first malformed token is one of them. *)
Lemma first_malformed_none (line : string) :
  first_malformed py_float line = None <->
  (forall token, In token (arg_tokens line) -> malformed py_float token = false).
Proof.
  unfold first_malformed. split.
  - intros H token. now apply find_none.
  - intros H. destruct (find (malformed py_float) (arg_tokens line)) as [t|] eqn:Hf;
      [|reflexivity].
    apply find_some in Hf as [Hin Hm]. rewrite (H t Hin) in Hm. discriminate.
Qed.

Lemma first_malformed_some (line token : string) :
  first_malformed py_float line = Some token ->
  In token (arg_tokens line) /\ malformed py_float token = true.
Proof. apply find_some. Qed.

Lemma arg_tokens_not_empty (line : string) :
  Forall (fun w => w <> "") (arg_tokens line).
Proof.
  unfold arg_tokens.
  pose proof (split_whitespace_not_empty (fst (split_comment line))) as H.
  destruct (Py.split_whitespace (fst (split_comment line))); [constructor|].
  now inversion H.
Qed.

Lemma scan_line_malformed (line token : string) :
  first_malformed py_float line = Some token ->
  exists msg, py_float (Py.drop 1 token) = ValueError msg
              /\ scan_line py_float line = Raise (GcodeArgumentError msg).
Proof.
  intros Hfind. pose proof (arg_tokens_not_empty line) as Hne.
  unfold scan_line, first_malformed, arg_tokens in *.
  destruct (split_comment line) as [cmd cm]. cbn [fst] in *.
  destruct (Py.split_whitespace cmd) as [|word rest]; [discriminate|]. cbn [tail] in *.
  destruct (scan_args_from_malformed rest token ∅ Hne Hfind) as (msg & Hconv & Hraise).
  exists msg. split; [assumption|]. unfold scan_args. now rewrite Hraise.
Qed.

Lemma scan_line_well_formed (line : string) :
  first_malformed py_float line = None ->
  exists c, scan_line py_float line = Ok c.
Proof.
  intros Hfind. pose proof (arg_tokens_not_empty line) as Hne.
  unfold scan_line, first_malformed, arg_tokens in *.
  destruct (split_comment line) as [cmd cm]. cbn [fst] in *.
  destruct (Py.split_whitespace cmd) as [|word rest]; [eauto|]. cbn [tail] in *.
  destruct (scan_args_from_well_formed rest ∅ Hne Hfind) as (d & Hok).
  unfold scan_args. rewrite Hok. unfold_bind. eauto.
Qed.

(** The stream raises at the first line with a malformed token, and the
    error names that line by its number and its text. *)
Lemma scan_lines_raises (line_no : nat) (before after : list string)
    (line token msg : string) :
  Forall (fun l => first_malformed py_float l = None) before ->
  first_malformed py_float line = Some token ->
  py_float (Py.drop 1 token) = ValueError msg ->
  raised (scan_lines py_float line_no (before ++ line :: after))
  = Some (GcodeParserError
            (scan_error_message msg (line_no + length before) line)).
Proof.
  revert line_no. induction before as [|l ls IH]; intros line_no Hclean Hfind Hconv.
  - cbn [app scan_lines length].
    destruct (scan_line_malformed line token Hfind) as (msg' & Hconv' & Hraise).
    rewrite Hraise. cbn. rewrite Nat.add_0_r. congruence.
  - inversion Hclean as [|? ? Hl Hls]; subst. cbn [app scan_lines length].
    destruct (scan_line_well_formed l Hl) as (c & Hok). rewrite Hok.
    rewrite <- Nat.add_succ_comm.
    destruct (is_blank c); cbn [raised]; now apply IH.
Qed.

Lemma scan_lines_ends (line_no : nat) (lines : list string) :
  Forall (fun l => first_malformed py_float l = None) lines ->
  raised (scan_lines py_float line_no lines) = None.
Proof.
  revert line_no. induction lines as [|l ls IH]; intros line_no Hclean; [reflexivity|].
  inversion Hclean as [|? ? Hl Hls]; subst. cbn [scan_lines].
  destruct (scan_line_well_formed l Hl) as (c & Hok). rewrite Hok.
  destruct (is_blank c); cbn [raised]; now apply IH.
Qed.

(** The error of a malformed token does not depend on its leading letter. *)
Lemma scan_arg_ignores_letter (d : gmap string (option float)) (t1 t2 : string) :
  Py.drop 1 t1 = Py.drop 1 t2 -> malformed py_float t1 = true ->
  scan_arg py_float d t1 = scan_arg py_float d t2.
Proof.
  intros Hsame Hm. assert (Hm2 : malformed py_float t2 = true).
  { unfold malformed in *. now rewrite <- Hsame. }
  destruct (scan_arg_malformed d t1 Hm) as (m1 & Hc1 & ->).
  destruct (scan_arg_malformed d t2 Hm2) as (m2 & Hc2 & ->). congruence.
Qed.

End Arguments.

(** C6, as amended. A line with an argument token whose characters after the
    leading letter are not empty and are no floating-point number makes the
    tokenizer raise an Argument Error that carries the conversion error of
    those characters, for the first such token of the line; the command
    stream raises it again as a Parse Error whose message holds the 1-based
    number of the line and the text of the line. The tokenizer succeeds on
    every other line, and a stream of such lines ends without an error. *)
Theorem malformed_argument_error (py_float : string -> conversion) :
  (forall line,
      (first_malformed py_float line = None <->
       forall token, In token (arg_tokens line) -> malformed py_float token = false)
      /\ (forall token, first_malformed py_float line = Some token ->
                        In token (arg_tokens line) /\ malformed py_float token = true))
  /\ (forall line token,
        first_malformed py_float line = Some token ->
        exists msg, py_float (Py.drop 1 token) = ValueError msg
                    /\ scan_line py_float line = Raise (GcodeArgumentError msg))
  /\ (forall line,
        first_malformed py_float line = None ->
        exists c, scan_line py_float line = Ok c)
  /\ (forall before line after token msg,
        Forall (fun l => first_malformed py_float l = None) before ->
        first_malformed py_float line = Some token ->
        py_float (Py.drop 1 token) = ValueError msg ->
        raised (scan py_float (before ++ line :: after))
        = Some (GcodeParserError
                  (scan_error_message msg (1 + length before) line)))
  /\ (forall lines,
        Forall (fun l => first_malformed py_float l = None) lines ->
        raised (scan py_float lines) = None).
Proof.
  split; [|split; [|split; [|split]]].
  - intros line. split; [apply first_malformed_none | apply first_malformed_some].
  - apply scan_line_malformed.
  - apply scan_line_well_formed.
  - intros. now apply (scan_lines_raises py_float 1 before after line token msg).
  - intros. now apply scan_lines_ends.
Qed.

Lemma malformed_argument_error_witness :
  raised (scan Literal.float_of_str malformed_program)
  = Some (GcodeParserError
            (scan_error_message "could not convert string to float: '1.2.3'" 4
               "G1 X1 E1.2.3")).
Proof.
  refine (proj1 (proj2 (proj2 (proj2 (malformed_argument_error Literal.float_of_str))))
            ["G1 X0 Y0 Z0"; "G1 X10 Y0 Z0.05 E1.0 F1200 ; wipe"; "(<layer>"]
            "G1 X1 E1.2.3" [] "E1.2.3" _ _ _ _).
  - repeat constructor.
  - vm_compute. reflexivity.
  - vm_compute. reflexivity.
Defined.

(** C6, as stated, fails on the token [E1.2.3]: the Argument Error carries
    the characters after the letter, not the token, and is the error of the
    token [F1.2.3] as well. *)
Lemma argument_error_drops_letter :
  scan_args Literal.float_of_str ["E1.2.3"]
  = Raise (GcodeArgumentError "could not convert string to float: '1.2.3'")
  /\ scan_args Literal.float_of_str ["F1.2.3"]
     = scan_args Literal.float_of_str ["E1.2.3"]
  /\ Py.contains "E1.2.3" "could not convert string to float: '1.2.3'" = false.
Proof. repeat split; vm_compute; reflexivity. Qed.

(** ** Further properties of the lexer *)

Section Comments.

Implicit Types (s line : string) (c x : ascii).

(** [find] of one character, one character of the text at a time. *)
Lemma find_char_nil c : Py.find (String c "") "" = -1.
Proof. reflexivity. Qed.

Lemma find_char_cons c x s :
  Py.find (String c "") (String x s)
  = if Ascii.eqb c x then 0
    else if 0 <=? Py.find (String c "") s then Py.find (String c "") s + 1 else -1.
Proof.
  unfold Py.find. cbn [String.index]. rewrite prefix_char.
  destruct (Ascii.eqb c x); [reflexivity|].
  destruct (String.index 0 (String c "") s) as [i|]; [|reflexivity].
  replace (0 <=? Z.of_nat i) with true by (symmetry; apply Z.leb_le; lia).
  lia.
Qed.

Lemma find_char_bound c s : -1 <= Py.find (String c "") s.
Proof.
  unfold Py.find. destruct (String.index 0 (String c "") s); lia.
Qed.

(** Cutting a text at the first occurrence of a character. *)
Lemma cut_at_find c s :
  (if 0 <=? Py.find (String c "") s
   then (Py.slice_to (Py.find (String c "") s) s, Py.slice_from (Py.find (String c "") s) s)
   else (s, ""))
  = break_at (Ascii.eqb c) s.
Proof.
  induction s as [|x s IH]; [reflexivity|].
  rewrite find_char_cons. cbn [break_at].
  destruct (Ascii.eqb c x); [reflexivity|].
  rewrite <- IH. pose proof (find_char_bound c s) as Hb.
  destruct (0 <=? Py.find (String c "") s) eqn:Hfound.
  - apply Z.leb_le in Hfound.
    replace (0 <=? Py.find (String c "") s + 1) with true by (symmetry; apply Z.leb_le; lia).
    unfold Py.slice_to, Py.slice_from.
    replace (Z.to_nat (Py.find (String c "") s + 1))
      with (S (Z.to_nat (Py.find (String c "") s))) by lia.
    reflexivity.
  - reflexivity.
Qed.

Lemma break_at_lossless (P : ascii -> bool) s :
  fst (break_at P s) +:+ snd (break_at P s) = s.
Proof.
  induction s as [|x s IH]; [reflexivity|]. cbn [break_at].
  destruct (P x); [reflexivity|].
  destruct (break_at P s) as [a b]. cbn [fst snd] in *.
  now rewrite app_cons_str, IH.
Qed.

Lemma break_at_twice s :
  (let '(command, comment) := break_at (Ascii.eqb ";") s in
   let '(command', comment') := break_at (Ascii.eqb "(") command in
   (command', comment' +:+ comment))
  = break_at opens_comment s.
Proof.
  induction s as [|x s IH]; [reflexivity|]. cbn [break_at]. unfold opens_comment at 1.
  rewrite (Ascii.eqb_sym x ";"), (Ascii.eqb_sym x "(").
  destruct (Ascii.eqb ";" x) eqn:Hsemi; cbn [orb].
  - reflexivity.
  - pose proof (break_at_lossless (Ascii.eqb ";") s) as Hs.
    destruct (break_at (Ascii.eqb ";") s) as [command comment]. cbn [fst snd] in Hs.
    cbn [break_at]. destruct (Ascii.eqb "(" x); [now rewrite app_cons_str, Hs|].
    destruct (break_at (Ascii.eqb "(") command) as [command' comment'].
    now rewrite <- IH.
Qed.

Lemma break_at_prefix (P : ascii -> bool) s :
  forall_chars (fun c => negb (P c)) (fst (break_at P s)) = true.
Proof.
  induction s as [|x s IH]; [reflexivity|]. cbn [break_at].
  destruct (P x) eqn:HP; [reflexivity|].
  destruct (break_at P s) as [a b]. cbn in *. now rewrite HP.
Qed.

Lemma break_at_rest (P : ascii -> bool) s :
  snd (break_at P s) = ""
  \/ exists c rest, snd (break_at P s) = String c rest /\ P c = true.
Proof.
  induction s as [|x s IH]; [now left|]. cbn [break_at].
  destruct (P x) eqn:HP; [right; now exists x, s|].
  destruct (break_at P s) as [a b]. exact IH.
Qed.

Lemma break_at_none (P : ascii -> bool) s :
  forall_chars (fun c => negb (P c)) s = true -> break_at P s = (s, "").
Proof.
  induction s as [|x s IH]; [reflexivity|]. cbn. intros H.
  apply andb_true_iff in H as [Hx Hs]. apply negb_true_iff in Hx.
  now rewrite Hx, (IH Hs).
Qed.

Lemma split_comment_break_at line : split_comment line = break_at opens_comment line.
Proof.
  rewrite <- break_at_twice, <- (cut_at_find ";" line). unfold split_comment.
  destruct (0 <=? Py.find ";" line);
    rewrite <- (cut_at_find "(");
    match goal with |- context [0 <=? ?i] => destruct (0 <=? i) end; reflexivity.
Qed.

End Comments.

(** X1. The comment of a line starts at its first semicolon or opening
    parenthesis, whichever comes first: the command portion is the text
    before it and holds neither character, and the comment is empty or
    starts with one of the two. *)
Theorem split_comment_first_opener (line : string) :
  split_comment line = break_at opens_comment line
  /\ forall_chars (fun c => negb (opens_comment c)) (fst (split_comment line)) = true
  /\ (snd (split_comment line) = ""
      \/ exists c rest, snd (split_comment line) = String c rest
                        /\ opens_comment c = true).
Proof.
  rewrite split_comment_break_at. split; [reflexivity|].
  split; [apply break_at_prefix | apply break_at_rest].
Qed.

Section Dicts.

Variable py_float : string -> conversion.

(** A token that [scan_arg] accepts has a letter, and that letter is set to
    the value of the token, whatever the dict holds. *)
Lemma scan_arg_ok (d d' : gmap string (option float)) (token : string) :
  scan_arg py_float d token = Ok d' ->
  exists c rest, token = String c rest /\ malformed py_float token = false
                 /\ d' = <[String c "" := token_value py_float token]> d.
Proof.
  unfold scan_arg, malformed, token_value.
  destruct token as [|c rest].
  - cbn. discriminate.
  - cbn [Py.first]. unfold_bind.
    destruct (bool_decide (Py.drop 1 (String c rest) = "")); cbn [negb andb].
    + intros [= <-]. now exists c, rest.
    + destruct (py_float (Py.drop 1 (String c rest))); [|discriminate].
      intros [= <-]. now exists c, rest.
Qed.

Lemma scan_arg_any_dict (d d' d2 : gmap string (option float)) (token : string) :
  scan_arg py_float d token = Ok d' ->
  exists k v, d' = <[k := v]> d /\ Py.take 1 token = k
              /\ scan_arg py_float d2 token = Ok (<[k := v]> d2).
Proof.
  intros H. destruct (scan_arg_ok _ _ _ H) as (c & rest & -> & Hm & ->).
  exists (String c ""), (token_value py_float (String c rest)).
  repeat split. destruct (scan_arg_well_formed py_float d2 (String c rest)) as (d3 & H3);
    [discriminate | assumption |].
  destruct (scan_arg_ok _ _ _ H3) as (c' & rest' & [= <- <-] & _ & ->). exact H3.
Qed.

Lemma last_value_app (key : string) (start : option (option float))
    (l1 l2 : list string) :
  last_value py_float key start (l1 ++ l2)
  = last_value py_float key (last_value py_float key start l1) l2.
Proof. unfold last_value. apply fold_left_app. Qed.

Lemma last_value_skip (key : string) (start : option (option float))
    (tokens : list string) :
  Forall (fun t => Py.take 1 t <> key) tokens ->
  last_value py_float key start tokens = start.
Proof.
  revert start. induction tokens as [|t ts IH]; intros start H; [reflexivity|].
  inversion H as [|? ? Ht Hts]; subst. unfold last_value in *. cbn [fold_left].
  rewrite bool_decide_eq_false_2 by assumption. now apply IH.
Qed.

Lemma last_value_found (key : string) (tokens : list string) (v : option float) :
  last_value py_float key None tokens = Some v ->
  exists token, In token tokens /\ Py.take 1 token = key.
Proof.
  induction tokens as [|t ts IH] using rev_ind; [discriminate|].
  rewrite last_value_app. unfold last_value at 1. cbn [fold_left].
  destruct (bool_decide (Py.take 1 t = key)) eqn:Ht.
  - intros _. exists t. split; [apply in_or_app; right; now left|].
    now apply bool_decide_eq_true in Ht.
  - intros H. destruct (IH H) as (token & Hin & Hk).
    exists token. split; [apply in_or_app; now left | assumption].
Qed.

Lemma scan_args_from_lookup (tokens : list string)
    (d0 d : gmap string (option float)) (key : string) :
  scan_args_from py_float d0 tokens = Ok d ->
  d !! key = last_value py_float key (d0 !! key) tokens.
Proof.
  revert d0. induction tokens as [|t ts IH]; intros d0 H; cbn in H.
  - now injection H as <-.
  - destruct (scan_arg py_float d0 t) as [d1|] eqn:Ht; [|discriminate].
    unfold_bind. rewrite (IH _ H). unfold last_value. cbn [fold_left]. f_equal.
    destruct (scan_arg_ok _ _ _ Ht) as (c & rest & -> & _ & ->).
    change (Py.take 1 (String c rest)) with (String c "").
    destruct (bool_decide (String c "" = key)) eqn:Hk.
    + apply bool_decide_eq_true in Hk. subst key. apply lookup_insert_eq.
    + apply bool_decide_eq_false in Hk. now apply lookup_insert_ne.
Qed.

Lemma scan_args_from_tokens (tokens : list string)
    (d0 d : gmap string (option float)) :
  scan_args_from py_float d0 tokens = Ok d ->
  Forall (fun t => t <> "" /\ malformed py_float t = false) tokens.
Proof.
  revert d0. induction tokens as [|t ts IH]; intros d0 H; cbn in H; [constructor|].
  destruct (scan_arg py_float d0 t) as [d1|] eqn:Ht; [|discriminate].
  unfold_bind. constructor; [|now apply (IH d1)].
  destruct (scan_arg_ok _ _ _ Ht) as (c & rest & -> & Hm & _). now split.
Qed.

(** Two tokens with different letters can change places. *)
Lemma scan_args_from_permutation (tokens tokens' : list string) :
  Permutation tokens tokens' ->
  NoDup (map (Py.take 1) tokens) ->
  forall d0 d, scan_args_from py_float d0 tokens = Ok d ->
               scan_args_from py_float d0 tokens' = Ok d.
Proof.
  induction 1 as [|x l l' Hperm IH|x y l|l l' l'' H1 IH1 H2 IH2]; intros Hnd d0 d H.
  - exact H.
  - cbn in H |- *. destruct (scan_arg py_float d0 x) as [d1|]; [|discriminate].
    unfold_bind. apply IH; [|exact H]. now inversion Hnd.
  - cbn in H |- *.
    destruct (scan_arg py_float d0 y) as [d1|] eqn:Hy; [|discriminate]. unfold_bind.
    destruct (scan_arg py_float d1 x) as [d2|] eqn:Hx; [|discriminate]. unfold_bind.
    destruct (scan_arg_any_dict _ _ d0 _ Hx) as (kx & vx & -> & Hkx & Hx0).
    destruct (scan_arg_any_dict _ _ (<[kx := vx]> d0) _ Hy) as (ky & vy & -> & Hky & Hy1).
    rewrite Hx0. unfold_bind. rewrite Hy1. unfold_bind.
    rewrite insert_insert_ne; [exact H|].
    cbn [map] in Hnd. inversion Hnd as [|? ? Hnotin _]. subst kx ky.
    intros Heq. apply Hnotin. apply elem_of_cons. left. exact Heq.
  - apply IH2; [|now apply IH1].
    pose proof (Permutation_map (Py.take 1) H1) as Hp. now rewrite <- Hp.
Qed.

End Dicts.

(** X2. When [scan_args] returns a dict, each letter maps to the value of
    the last token that starts with it, [None] for a bare letter; every key
    is one character, the first of some token; and a token after which no
    token has its letter decides the value of that letter. *)
Theorem scan_args_last_wins (py_float : string -> conversion)
    (tokens : list string) (d : gmap string (option float)) :
  scan_args py_float tokens = Ok d ->
  (forall key, d !! key = last_value py_float key None tokens)
  /\ (forall key, is_Some (d !! key) ->
        String.length key = 1%nat
        /\ exists token, In token tokens /\ Py.take 1 token = key)
  /\ (forall before c rest after,
        tokens = before ++ String c rest :: after ->
        Forall (fun t => Py.take 1 t <> String c "") after ->
        d !! String c "" = Some (token_value py_float (String c rest))).
Proof.
  intros H. unfold scan_args in H.
  assert (Hlookup : forall key, d !! key = last_value py_float key None tokens).
  { intros key. now rewrite (scan_args_from_lookup _ _ _ _ key H), lookup_empty. }
  split; [exact Hlookup|]. split.
  - intros key [v Hv]. rewrite Hlookup in Hv.
    destruct (last_value_found _ _ _ _ Hv) as (token & Hin & Hk).
    split; [|now exists token].
    pose proof (scan_args_from_tokens _ _ _ _ H) as Hall.
    rewrite Forall_forall in Hall. apply list_elem_of_In in Hin.
    destruct (Hall _ Hin) as [Hne _]. subst key.
    destruct token; [contradiction | reflexivity].
  - intros before c rest after -> Hafter. rewrite Hlookup, last_value_app.
    unfold last_value at 1. cbn [fold_left].
    change (Py.take 1 (String c rest)) with (String c "").
    rewrite bool_decide_eq_true_2 by reflexivity.
    now apply last_value_skip.
Qed.

Lemma scan_args_last_wins_witness :
  exists d, scan_args Literal.float_of_str ["X1"; "E"; "X2.5"] = Ok d
            /\ d !! "X" = Some (Some 2.5%float) /\ d !! "E" = Some None.
Proof.
  destruct (scan_args Literal.float_of_str ["X1"; "E"; "X2.5"]) as [d|e] eqn:H.
  - exists d. split; [reflexivity|].
    destruct (scan_args_last_wins _ _ _ H) as (Hlookup & _).
    rewrite !Hlookup. split; vm_compute; reflexivity.
  - vm_compute in H. discriminate H.
Defined.

(** X3. The order of the argument tokens does not matter when their letters
    differ: if [scan_args] returns a dict for such tokens, it returns the
    same dict for every rearrangement of them. *)
Theorem scan_args_any_order (py_float : string -> conversion)
    (tokens tokens' : list string) (d : gmap string (option float)) :
  Permutation tokens tokens' ->
  NoDup (map (Py.take 1) tokens) ->
  scan_args py_float tokens = Ok d ->
  scan_args py_float tokens' = Ok d.
Proof.
  intros Hperm Hnd. now apply scan_args_from_permutation.
Qed.

Lemma scan_args_any_order_witness :
  scan_args Literal.float_of_str ["F1200"; "Y2"; "X1"]
  = scan_args Literal.float_of_str ["X1"; "Y2"; "F1200"].
Proof.
  destruct (scan_args Literal.float_of_str ["X1"; "Y2"; "F1200"]) as [d|e] eqn:H.
  - apply (scan_args_any_order _ ["X1"; "Y2"; "F1200"] ["F1200"; "Y2"; "X1"] d);
      [|refine (bool_decide_unpack _ _); vm_compute; exact I|exact H].
    apply Permutation_rev.
  - vm_compute in H. discriminate H.
Defined.

(** X4. A line of whitespace only, the empty line included, is tokenized to
    the blank command, and no other line is: for every tokenized line,
    [is_blank] holds exactly when every character of the line is
    whitespace. *)
Theorem blank_is_whitespace (py_float : string -> conversion) (line : string) :
  (forall_chars Py.is_whitespace line = true ->
   scan_line py_float line = Ok (Command "" ∅ ""))
  /\ (forall c, scan_line py_float line = Ok c ->
                (is_blank c = true <-> forall_chars Py.is_whitespace line = true)).
Proof.
  assert (Hblank : forall_chars Py.is_whitespace line = true ->
                   scan_line py_float line = Ok (Command "" ∅ "")).
  { intros Hsp. unfold scan_line.
    rewrite split_comment_break_at, break_at_none.
    - now apply split_whitespace_nil in Hsp as ->.
    - eapply forall_chars_weaken; [|exact Hsp]. apply space_opens_no_comment. }
  split; [exact Hblank|]. intros c Hc. split.
  - intros Hb. unfold scan_line in Hc.
    pose proof (break_at_lossless opens_comment line) as Hline.
    rewrite split_comment_break_at in Hc.
    destruct (break_at opens_comment line) as [cmd cm]. cbn [fst snd] in Hline.
    pose proof (split_whitespace_not_empty cmd) as Hne.
    destruct (Py.split_whitespace cmd) as [|word rest] eqn:Hw.
    + injection Hc as <-. unfold is_blank in Hb. cbn in Hb.
      apply andb_true_iff in Hb as [_ Hcm]. apply bool_decide_eq_true in Hcm.
      subst cm. rewrite app_nil_r_str in Hline. subst cmd.
      now apply split_whitespace_nil.
    + destruct (scan_args py_float rest) as [d|]; [|discriminate].
      unfold_bind. injection Hc as <-. unfold is_blank in Hb. cbn in Hb.
      apply andb_true_iff in Hb as [Hb _]. apply andb_true_iff in Hb as [Hb _].
      apply bool_decide_eq_true in Hb. inversion Hne; subst. contradiction.
  - intros Hsp. rewrite (Hblank Hsp) in Hc. now injection Hc as <-.
Qed.

Lemma blank_is_whitespace_witness :
  scan_line Literal.float_of_str (String "009" (String "028" "  ")) = Ok (Command "" ∅ "").
Proof.
  exact (proj1 (blank_is_whitespace Literal.float_of_str (String "009" (String "028" "  ")))
           eq_refl).
Defined.

(** X5. The command word of a tokenized line holds no whitespace, no
    semicolon and no opening parenthesis; it is empty only when the line has
    no arguments, and is then the word of a line whose command portion is
    whitespace. *)
Theorem command_word_clean (py_float : string -> conversion) (line : string)
    (c : command) :
  scan_line py_float line = Ok c ->
  forall_chars (fun x => negb (Py.is_whitespace x) && negb (opens_comment x)) (gcode c)
  = true
  /\ (gcode c = "" ->
      args c = ∅ /\ forall_chars Py.is_whitespace (fst (split_comment line)) = true)
  /\ comment c = snd (split_comment line).
Proof.
  unfold scan_line. intros Hc.
  pose proof (break_at_prefix opens_comment line) as Hclean.
  rewrite split_comment_break_at in *.
  destruct (break_at opens_comment line) as [cmd cm]. cbn [fst snd] in *.
  pose proof (split_whitespace_chars _ _ Hclean) as Hchars.
  pose proof (split_whitespace_not_empty cmd) as Hne.
  destruct (Py.split_whitespace cmd) as [|word rest] eqn:Hw.
  - injection Hc as <-. cbn. repeat split. now apply split_whitespace_nil.
  - destruct (scan_args py_float rest) as [d|]; [|discriminate].
    unfold_bind. injection Hc as <-. cbn.
    inversion Hchars; inversion Hne; subst. repeat split; try assumption; contradiction.
Qed.

Lemma command_word_clean_witness :
  exists c, scan_line Literal.float_of_str "G1 X1 (<loop> ; in)" = Ok c
            /\ gcode c = "G1" /\ comment c = "(<loop> ; in)".
Proof.
  destruct (scan_line Literal.float_of_str "G1 X1 (<loop> ; in)") as [c|e] eqn:H.
  - exists c. split; [reflexivity|].
    destruct (command_word_clean _ _ _ H) as (_ & _ & Hcm).
    split; [|exact Hcm]. vm_compute in H. now injection H as <-.
  - vm_compute in H. discriminate H.
Defined.

Section Stream.

Variable py_float : string -> conversion.

(** The tokenizer raises nothing but an Argument Error. *)
Lemma scan_line_raises (line : string) (e : exn) :
  scan_line py_float line = Raise e ->
  exists token msg, first_malformed py_float line = Some token
                    /\ py_float (Py.drop 1 token) = ValueError msg
                    /\ e = GcodeArgumentError msg.
Proof.
  intros H. destruct (first_malformed py_float line) as [token|] eqn:Hf.
  - destruct (scan_line_malformed py_float line token Hf) as (msg & Hconv & Hraise).
    exists token, msg. repeat split; [assumption|congruence].
  - destruct (scan_line_well_formed py_float line Hf) as (c & Hc). congruence.
Qed.

Lemma scan_lines_tokens (line_no : nat) (lines : list string) (cmds : list command) :
  Forall2 (fun line c => scan_line py_float line = Ok c) lines cmds ->
  yielded (scan_lines py_float line_no lines)
  = List.filter (fun c => negb (is_blank c)) cmds
  /\ raised (scan_lines py_float line_no lines) = None.
Proof.
  intros H. revert line_no. induction H as [|line c lines cmds Hc _ IH]; intros line_no.
  - now split.
  - cbn [scan_lines List.filter]. rewrite Hc. destruct (IH (S line_no)) as [Hy Hr].
    destruct (is_blank c); cbn [negb yielded raised]; now rewrite Hy.
Qed.

Lemma scan_lines_not_blank (line_no : nat) (lines : list string) :
  Forall (fun c => is_blank c = false) (yielded (scan_lines py_float line_no lines)).
Proof.
  revert line_no. induction lines as [|line lines IH]; intros line_no; [constructor|].
  cbn [scan_lines]. destruct (scan_line py_float line) as [c|e].
  - destruct (is_blank c) eqn:Hb; [apply IH|]. cbn. constructor; [assumption | apply IH].
  - destruct e; constructor.
Qed.

Lemma scan_lines_raised (line_no : nat) (lines : list string) (e : exn) :
  raised (scan_lines py_float line_no lines) = Some e ->
  exists i line token msg,
    lines !! i = Some line
    /\ first_malformed py_float line = Some token
    /\ py_float (Py.drop 1 token) = ValueError msg
    /\ e = GcodeParserError (scan_error_message msg (line_no + i) line)
    /\ (length (yielded (scan_lines py_float line_no lines)) <= i)%nat.
Proof.
  revert line_no. induction lines as [|line lines IH]; intros line_no H; [discriminate|].
  cbn [scan_lines] in H |- *. destruct (scan_line py_float line) as [c|e'] eqn:Hc.
  - assert (Hrest : raised (scan_lines py_float (S line_no) lines) = Some e).
    { now destruct (is_blank c). }
    destruct (IH _ Hrest) as (i & l & token & msg & Hl & Hf & Hconv & -> & Hlen).
    exists (S i), l, token, msg. repeat split; try assumption.
    + now rewrite Nat.add_succ_r.
    + destruct (is_blank c); cbn [yielded length]; lia.
  - destruct (scan_line_raises _ _ Hc) as (token & msg & Hf & Hconv & ->).
    cbn in H. injection H as <-. exists 0%nat, line, token, msg.
    rewrite Nat.add_0_r. repeat split; try assumption. cbn. lia.
Qed.

End Stream.

(** X6. When every line tokenizes, the command stream yields the tokenized
    lines that are not blank, in the order of the lines, and ends without an
    error. *)
Theorem scan_yields_non_blank_tokens (py_float : string -> conversion)
    (lines : list string) (cmds : list command) :
  Forall2 (fun line c => scan_line py_float line = Ok c) lines cmds ->
  yielded (scan py_float lines) = List.filter (fun c => negb (is_blank c)) cmds
  /\ raised (scan py_float lines) = None.
Proof. apply scan_lines_tokens. Qed.

Lemma scan_yields_non_blank_tokens_witness :
  yielded (scan Literal.float_of_str ["M101"; ""; "; done"])
  = [Command "M101" ∅ ""; Command "" ∅ "; done"]
  /\ raised (scan Literal.float_of_str ["M101"; ""; "; done"]) = None.
Proof.
  destruct (scan_yields_non_blank_tokens Literal.float_of_str ["M101"; ""; "; done"]
              [Command "M101" ∅ ""; Command "" ∅ ""; Command "" ∅ "; done"])
    as [Hy Hr]; [repeat constructor|].
  split; [|exact Hr]. rewrite Hy. vm_compute. reflexivity.
Defined.

(** X7. Whatever the text, the command stream holds no blank command and no
    more commands than there are lines. When it raises, the error is a
    [GcodeParserError] made from the conversion error of the first malformed
    token of a line of the text, with the 1-based index of that line and the
    line itself, and fewer commands than that index were yielded before. *)
Theorem scan_stream_shape (py_float : string -> conversion) (lines : list string) :
  Forall (fun c => is_blank c = false) (yielded (scan py_float lines))
  /\ (forall e, raised (scan py_float lines) = Some e ->
        exists i line token msg,
          lines !! i = Some line
          /\ first_malformed py_float line = Some token
          /\ py_float (Py.drop 1 token) = ValueError msg
          /\ e = GcodeParserError (scan_error_message msg (1 + i) line)
          /\ (length (yielded (scan py_float lines)) <= i)%nat).
Proof.
  split; [apply scan_lines_not_blank | apply scan_lines_raised].
Qed.

Lemma scan_stream_shape_witness :
  exists i line token msg,
    malformed_program !! i = Some line
    /\ first_malformed Literal.float_of_str line = Some token
    /\ Literal.float_of_str (Py.drop 1 token) = ValueError msg
    /\ GcodeParserError
         (scan_error_message "could not convert string to float: '1.2.3'" 4 "G1 X1 E1.2.3")
       = GcodeParserError (scan_error_message msg (1 + i) line)
    /\ (length (yielded (scan Literal.float_of_str malformed_program)) <= i)%nat.
Proof.
  apply (proj2 (scan_stream_shape Literal.float_of_str malformed_program)).
  vm_compute. reflexivity.
Defined.

(** A text without separators is one line. *)
Lemma split_lines_one_line (s : string) :
  separator_free s = true -> split_lines s = [s].
Proof.
  intros Hs. unfold split_lines, Py.replace.
  rewrite (replace_cr_unchanged s Hs), (collapse_unchanged s Hs).
  apply split_one. now apply separator_free_split.
Qed.

(** X8. Splitting is stable: every line that [split_lines] returns is split
    into itself alone, so splitting the lines of a text again changes
    nothing. *)
Theorem split_lines_stable (content : string) :
  Forall (fun line => split_lines line = [line]) (split_lines content)
  /\ concat (map split_lines (split_lines content)) = split_lines content.
Proof.
  assert (H : Forall (fun line => split_lines line = [line]) (split_lines content)).
  { eapply Forall_impl; [apply split_lines_separator_free|].
    intros line. apply split_lines_one_line. }
  split; [exact H|].
  induction H as [|line lines Hline _ IH]; [reflexivity|].
  cbn. now rewrite Hline, IH.
Qed.

(** ** Further properties of the flags *)

(** Two integers with the same bits are equal: the bits of [lor], [land]
    and [lnot] are taken apart, and each case is closed. *)
Ltac same_bits :=
  apply Z.bits_inj'; intros ?n ?Hn;
  repeat (rewrite Z.lor_spec || rewrite Z.land_spec || rewrite Z.lnot_spec by assumption);
  repeat match goal with
         | |- context [Z.testbit ?a ?n] => destruct (Z.testbit a n)
         end;
  reflexivity.

Ltac split_rules :=
  repeat match goal with
         | |- context [if ?b then _ else _] => destruct b eqn:?
         end.

Lemma small_high_bits (a n : Z) : 0 <= a < 32 -> 5 <= n -> Z.testbit a n = false.
Proof.
  intros Ha Hn. destruct (Z.eq_dec a 0) as [->|Hne]; [apply Z.bits_0|].
  apply Z.bits_above_log2; [lia|].
  assert (Z.log2 a < 5); [|lia]. apply (Z.log2_lt_pow2 a 5); lia.
Qed.

Lemma small_of_high_bits (a : Z) :
  0 <= a -> (forall n, 5 <= n -> Z.testbit a n = false) -> a < 32.
Proof.
  intros Ha Hbits. destruct (Z.lt_ge_cases a 32) as [|Hbig]; [assumption|].
  assert (Hlog : 5 <= Z.log2 a) by (apply (Z.log2_le_pow2 a 5); lia).
  pose proof (Z.bit_log2 a ltac:(lia)) as Hbit.
  rewrite (Hbits _ Hlog) in Hbit. discriminate.
Qed.

Lemma set_flags_high_bits (f : Z) (c : command) (n : Z) :
  5 <= n -> Z.testbit (set_flags f c) n = Z.testbit f n.
Proof.
  intros Hn. assert (H0 : 0 <= n) by lia.
  assert (H1 : Z.testbit FLAG_PERIMETER n = false) by (apply small_high_bits; [easy|lia]).
  assert (H2 : Z.testbit FLAG_PERIMETER_OUTER n = false) by (apply small_high_bits; [easy|lia]).
  assert (H4 : Z.testbit FLAG_LOOP n = false) by (apply small_high_bits; [easy|lia]).
  assert (H8 : Z.testbit FLAG_SURROUND_LOOP n = false) by (apply small_high_bits; [easy|lia]).
  assert (H16 : Z.testbit FLAG_EXTRUDER_ON n = false) by (apply small_high_bits; [easy|lia]).
  unfold set_flags. split_rules;
    repeat (rewrite Z.lor_spec || rewrite Z.land_spec || rewrite Z.lnot_spec by assumption);
    rewrite ?H1, ?H2, ?H4, ?H8, ?H16; cbn [negb orb]; now rewrite ?orb_false_r, ?andb_true_r.
Qed.

Lemma set_flags_nonneg (f : Z) (c : command) : 0 <= f -> 0 <= set_flags f c.
Proof.
  intros Hf. unfold set_flags. split_rules;
    repeat (apply Z.lor_nonneg; split); try (apply Z.land_nonneg; left); easy.
Qed.

(** X9. [set_flags] touches the five flag bits only: every higher bit of
    the flags is as before, and flags between 0 and 31 stay between 0 and
    31. *)
Theorem set_flags_five_bits (f : Z) (c : command) :
  (forall n, 5 <= n -> Z.testbit (set_flags f c) n = Z.testbit f n)
  /\ (0 <= f < 32 -> 0 <= set_flags f c < 32).
Proof.
  split; [intros n; apply set_flags_high_bits|].
  intros Hf. split; [apply set_flags_nonneg; lia|].
  apply small_of_high_bits; [apply set_flags_nonneg; lia|].
  intros n Hn. rewrite set_flags_high_bits by assumption. now apply small_high_bits.
Qed.

Lemma set_flags_five_bits_witness :
  0 <= set_flags 31 (Command "M103" ∅ "") < 32.
Proof.
  apply (proj2 (set_flags_five_bits 31 (Command "M103" ∅ ""))). lia.
Defined.

(** X10. [set_flags] is idempotent: the same command a second time changes
    nothing. *)
Theorem set_flags_idempotent (f : Z) (c : command) :
  set_flags (set_flags f c) c = set_flags f c.
Proof.
  unfold set_flags. split_rules; try reflexivity; same_bits.
Qed.

(** X11. A start marker followed by its end marker leaves the flag clear
    and the other flags as they were before the two, whether the flag was
    set before or not: for the loop, the perimeter (with its outer flag),
    the surrounding loop, and the extruder codes [M101] and [M103]. *)
Theorem set_flags_start_end (f : Z) (c1 c2 : command) :
  (first_trigger flag_rules c1 = Some (CommentContains "(<loop>") ->
   first_trigger flag_rules c2 = Some (CommentContains "(</loop>)") ->
   set_flags (set_flags f c1) c2 = clear_bit FLAG_LOOP f)
  /\ (first_trigger flag_rules c1 = Some (CommentContains "(<perimeter>") ->
      first_trigger flag_rules c2 = Some (CommentContains "(</perimeter>)") ->
      set_flags (set_flags f c1) c2
      = clear_bit FLAG_PERIMETER_OUTER (clear_bit FLAG_PERIMETER f))
  /\ (first_trigger flag_rules c1 = Some (CommentContains "(<surroundingLoop>)") ->
      first_trigger flag_rules c2 = Some (CommentContains "(</surroundingLoop>)") ->
      set_flags (set_flags f c1) c2 = clear_bit FLAG_SURROUND_LOOP f)
  /\ (first_trigger flag_rules c1 = Some (WordEquals "M101") ->
      first_trigger flag_rules c2 = Some (WordEquals "M103") ->
      set_flags (set_flags f c1) c2 = clear_bit FLAG_EXTRUDER_ON f).
Proof.
  rewrite !set_flags_first_match.
  repeat split; intros H1 H2; revert H1 H2;
    unfold first_trigger, first_match, flag_rules, set_bit, clear_bit;
    repeat match goal with
           | |- context [triggered ?t ?c] => destruct (triggered t c)
           end;
    intros H1 H2; try discriminate H1; try discriminate H2;
    split_rules; same_bits.
Qed.

Lemma set_flags_start_end_witness :
  set_flags (set_flags 5 (Command "" ∅ "(<loop> inner )")) (Command "" ∅ "(</loop>)") = 1.
Proof.
  exact (proj1 (set_flags_start_end 5 (Command "" ∅ "(<loop> inner )")
                  (Command "" ∅ "(</loop>)")) eq_refl eq_refl).
Defined.

(** ** Further properties of the parse loop *)

Section Loop.

Variable g : namespace.

(** What the loop leaves in the parser, and what it asked of the commands. *)
Lemma parse_loop_attributes (s : stream) (st st' : state) :
  parse_loop g st s = Ok st' ->
  self_flags (self st') = fold_left set_flags (yielded s) (self_flags (self st))
  /\ self_src (self st') = last_position (self_src (self st)) (yielded s)
  /\ (forall c, last (yielded s) = Some c ->
        args c !! "E" = Some (self_e_len (self st')))
  /\ (yielded s = [] -> self st' = self st)
  /\ raised s = None
  /\ Forall (fun c => is_Some (args c !! "E") /\ is_Some (args c !! "F")
                      /\ exists d, command_coords c = Ok d) (yielded s).
Proof.
  revert st. induction s as [|c rest IH|e]; intros st H; cbn in H.
  - injection H as <-. cbn. repeat split; easy || constructor.
  - destruct (parse_command g st c) as [st1|] eqn:Hc; [|discriminate].
    unfold_bind. destruct (IH _ H) as (Hf & Hp & He & Hnil & Hr & Hall).
    destruct (parse_command_ok _ _ _ _ Hc) as (d & e & f & Hd & HE & HF & Hself & _).
    cbn [yielded fold_left last_position raised]. rewrite Hd.
    rewrite Hself in Hf, Hp. cbn [self_flags self_src] in Hf, Hp.
    split; [exact Hf|]. split; [now destruct d|]. split; [|split; [discriminate|split]].
    + intros c'. destruct (yielded rest) as [|c2 cs] eqn:Hy.
      * cbn. intros [= <-]. rewrite (Hnil eq_refl), Hself. exact HE.
      * intros Hlast. apply He. now rewrite <- Hlast.
    + exact Hr.
    + constructor; [|exact Hall]. rewrite HE, HF. repeat split; eauto.
  - discriminate.
Qed.

End Loop.

(** X13. When the loop of [parse] reaches the end of the stream, the flags
    of the parser are [set_flags] folded over all the commands, those that
    build no Movement included, its position is the destination of the last
    [G1] command, and its extrusion length is the E argument of the last
    command; without commands the parser is as before. *)
Theorem parse_loop_leaves_parser (g : namespace) (s : stream) (st st' : state) :
  parse_loop g st s = Ok st' ->
  self_flags (self st') = fold_left set_flags (yielded s) (self_flags (self st))
  /\ self_src (self st') = last_position (self_src (self st)) (yielded s)
  /\ (forall c, last (yielded s) = Some c ->
        args c !! "E" = Some (self_e_len (self st')))
  /\ (yielded s = [] -> self st' = self st).
Proof.
  intros H. destruct (parse_loop_attributes g _ _ _ H) as (Hf & Hp & He & Hnil & _).
  now repeat split.
Qed.

Lemma parse_loop_leaves_parser_witness :
  exists st',
    parse_loop gcodeparser2 pending_state (Yield marker_after_reset Stop) = Ok st'
    /\ self_src (self st') = Some first_stop
    /\ self_e_len (self st') = Some 0%float.
Proof.
  destruct (parse_loop gcodeparser2 pending_state (Yield marker_after_reset Stop))
    as [st'|e] eqn:H.
  - exists st'. split; [reflexivity|].
    destruct (parse_loop_leaves_parser _ _ _ _ H) as (_ & Hp & He & _).
    split; [exact Hp|]. specialize (He marker_after_reset eq_refl).
    assert (HE : args marker_after_reset !! "E" = Some (Some 0%float))
      by (vm_compute; reflexivity).
    congruence.
  - vm_compute in H. discriminate H.
Defined.

(** X14. The loop of [parse] reaches the end of the stream only when the
    stream raised nothing and every command, a comment line or a code
    without motion included, carries an E and an F argument, and every [G1]
    command an X, a Y and a Z argument. *)
Theorem parse_loop_demands_arguments (g : namespace) (s : stream) (st st' : state) :
  parse_loop g st s = Ok st' ->
  raised s = None
  /\ Forall (fun c => is_Some (args c !! "E") /\ is_Some (args c !! "F")
                      /\ (gcode c = "G1" ->
                          is_Some (args c !! "X") /\ is_Some (args c !! "Y")
                          /\ is_Some (args c !! "Z")))
            (yielded s).
Proof.
  intros H. destruct (parse_loop_attributes g _ _ _ H) as (_ & _ & _ & _ & Hr & Hall).
  split; [exact Hr|]. eapply Forall_impl; [exact Hall|].
  intros c (HE & HF & d & Hd). split; [assumption|]. split; [assumption|].
  intros Hw. destruct (command_coords_ok _ _ Hd)
    as [[Hne _]|[_ (x & y & z & Hx & Hy & Hz & _)]]; [contradiction|].
  rewrite Hx, Hy, Hz. repeat split; eauto.
Qed.

Lemma parse_loop_demands_arguments_witness :
  is_Some (args marker_after_reset !! "E") /\ is_Some (args marker_after_reset !! "F").
Proof.
  destruct (parse_loop gcodeparser2 pending_state (Yield marker_after_reset Stop))
    as [st'|e] eqn:H.
  - destruct (parse_loop_demands_arguments _ _ _ _ H) as (_ & Hall).
    inversion Hall as [|? ? (HE & HF & _) _]. now split.
  - vm_compute in H. discriminate H.
Defined.

Lemma command_coords_raises (c : command) (e : exn) :
  command_coords c = Raise e ->
  exists key, e = KeyError key /\ In key ["X"; "Y"; "Z"; "E"; "F"].
Proof.
  unfold command_coords, getitem. destruct (String.eqb (gcode c) "G1"); [|discriminate].
  destruct (args c !! "X"); [|intros [= <-]; exists "X"; cbn; auto].
  destruct (args c !! "Y"); [|intros [= <-]; exists "Y"; cbn; auto].
  destruct (args c !! "Z"); [|intros [= <-]; exists "Z"; cbn; auto].
  discriminate.
Qed.

Lemma parse_command_shipped_raises (st : state) (c : command) (e : exn) :
  parse_command gcodeparser2 st c = Raise e -> shipped_error e.
Proof.
  unfold parse_command.
  destruct (command_coords c) as [d|e'] eqn:Hd.
  - unfold getitem.
    destruct (args c !! "E"); [|intros [= <-]; left; exists "E"; cbn; auto 10].
    destruct (args c !! "F"); [|intros [= <-]; left; exists "F"; cbn; auto 10].
    unfold_bind. destruct (self_src (self st)) as [s|]; [|discriminate].
    destruct d as [p|]; [|discriminate].
    destruct (point_eqb s p); [discriminate|]. cbn.
    intros [= <-]. right. now left.
  - intros [= <-]. left. exact (command_coords_raises c e' Hd).
Qed.

Lemma parse_loop_shipped_raises (s : stream) (st : state) (e : exn) :
  parse_loop gcodeparser2 st s = Raise e -> raised s = Some e \/ shipped_error e.
Proof.
  revert st. induction s as [|c rest IH|e']; intros st H; cbn in H.
  - discriminate.
  - destruct (parse_command gcodeparser2 st c) as [st1|e1] eqn:Hc.
    + unfold_bind. cbn. now apply (IH st1).
    + unfold_bind. assert (e1 = e) as -> by congruence.
      right. exact (parse_command_shipped_raises st c e Hc).
  - assert (e' = e) as -> by congruence. now left.
Qed.

(** X17. With the module as it is, [parse] returns on no input: every parse
    ends in a [KeyError] for one of X, Y, Z, E and F, in a [NameError] for
    [delta_e] or for [GcodeParseError], or in the [GcodeParserError] of the
    command stream. *)
Theorem parse_shipped_errors (py_float : string -> conversion) (p : parser)
    (lines : list string) :
  exists e, parse py_float gcodeparser2 p lines = Raise e /\ shipped_error e.
Proof.
  destruct (parse_loop gcodeparser2 (State p [] [] []) (scan py_float lines))
    as [st|e] eqn:Hloop.
  - exists (NameError "GcodeParseError").
    split; [now apply (parse_completed_name_error py_float p lines st)|].
    right. right. now left.
  - exists e. split; [unfold parse; now rewrite Hloop|].
    destruct (parse_loop_shipped_raises _ _ _ Hloop) as [Hr|He]; [|exact He].
    destruct (scan_lines_raised py_float 1 lines e Hr) as (i & l & t & m & _ & _ & _ & -> & _).
    right. right. right. eauto.
Qed.
